(** * AutoKeras tuner: registry lookup, best-model path and the search
      orchestration of [AutoTuner] (autokeras/tuner.py). *)

From Stdlib Require Import Ascii.
From stdpp Require Import gmap strings list pretty.

(** ** Python values and exceptions *)

(** The classes defined in autokeras/tuner.py (values of [TUNER_CLASSES]). *)
Inductive tuner_class :=
| BayesianOptimization
| RandomSearch
| Hyperband
| Greedy
| ImageClassifierTuner.

#[global] Instance tuner_class_eq_dec : EqDecision tuner_class.
Proof. solve_decision. Defined.

(** What a caller can hand to [get_tuner_class]. *)
Inductive pyvalue :=
| PyNone
| PyBool (b : bool)
| PyInt (z : Z)
| PyStr (s : string)
| PyClass (c : tuner_class).

(** The exceptions that occur in the module, by Python class. *)
Inductive exn :=
| ValueError (msg : string)
| KeyError (key : string)
| IndexError
| AttributeError (attr : string)
| TypeError (msg : string)
| NotFoundError (path : string)
| OtherError (tag : string).

#[global] Instance exn_eq_dec : EqDecision exn.
Proof. solve_decision. Defined.

Inductive result (A : Type) :=
| Return (a : A)
| Raise (e : exn).
Arguments Return {A} a.
Arguments Raise {A} e.

(** [isinstance(v, str)] *)
Definition isinstance_str (v : pyvalue) : bool :=
  match v with PyStr _ => true | _ => false end.

Definition class_name (c : tuner_class) : string :=
  match c with
  | BayesianOptimization => "BayesianOptimization"
  | RandomSearch => "RandomSearch"
  | Hyperband => "Hyperband"
  | Greedy => "Greedy"
  | ImageClassifierTuner => "ImageClassifierTuner"
  end.

(** [str(v)], which is what [str.format] substitutes for a field with no
    format specification. *)
Definition py_str (v : pyvalue) : string :=
  match v with
  | PyNone => "None"
  | PyBool true => "True"
  | PyBool false => "False"
  | PyInt z => pretty z
  | PyStr s => s
  | PyClass c => "<class 'autokeras.tuner." +:+ class_name c +:+ "'>"
  end.

(** ** The tuner registry *)

Definition TUNER_CLASSES : gmap string tuner_class :=
  list_to_map
    [ ("bayesian", BayesianOptimization);
      ("random", RandomSearch);
      ("hyperband", Hyperband);
      ("greedy", Greedy);
      ("image_classifier", ImageClassifierTuner);
      ("image_regressor", Greedy);
      ("text_classifier", Greedy);
      ("text_regressor", Greedy);
      ("structured_data_classifier", Greedy);
      ("structured_data_regressor", Greedy) ].

(** The ten names the registry accepts. *)
Definition valid_names : list string :=
  [ "bayesian"; "random"; "hyperband"; "greedy"; "image_classifier";
    "image_regressor"; "text_classifier"; "text_regressor";
    "structured_data_classifier"; "structured_data_regressor" ].

(** A name between double quotes, as the error message writes it. *)
Definition quoted (s : string) : string :=
  String "034"%char (s +:+ String "034"%char EmptyString).

(** The text of the [ValueError] of [get_tuner_class], after [format]. *)
Definition invalid_tuner_message (tuner : pyvalue) : string :=
  "The value " +:+ py_str tuner +:+
  " passed for argument tuner is invalid, " +:+
  "expected one of " +:+ quoted "greedy" +:+ ", " +:+ quoted "random" +:+
  ", " +:+ quoted "hyperband" +:+ ", " +:+ quoted "bayesian" +:+ ".".

(** [get_tuner_class]: [isinstance(tuner, str) and tuner in TUNER_CLASSES]
    holds for a string that is a key of the registry, and then
    [TUNER_CLASSES.get(tuner)] is its class; for a value that is not a string
    the test fails before the registry is looked at. *)
Definition get_tuner_class (tuner : pyvalue) : result tuner_class :=
  match tuner with
  | PyStr name =>
      match TUNER_CLASSES !! name with
      | Some c => Return c
      | None => Raise (ValueError (invalid_tuner_message tuner))
      end
  | _ => Raise (ValueError (invalid_tuner_message tuner))
  end.

(** Substring test, to say what a message mentions. *)
Fixpoint is_prefix (p s : string) : bool :=
  match p, s with
  | EmptyString, _ => true
  | String a p', String b s' => if decide (a = b) then is_prefix p' s' else false
  | String _ _, EmptyString => false
  end.

Fixpoint contains (s p : string) : bool :=
  is_prefix p s ||
  match s with
  | EmptyString => false
  | String _ s' => contains s' p
  end.

(** The message names [n] when the quoted name occurs in it. *)
Definition message_lists (msg n : string) : bool := contains msg (quoted n).

(** ** Paths *)

Definition starts_with_sep (s : string) : bool :=
  match s with String "/" _ => true | _ => false end.

Fixpoint ends_with_sep (s : string) : bool :=
  match s with
  | EmptyString => false
  | String c EmptyString => if decide (c = "/"%char) then true else false
  | String _ s' => ends_with_sep s'
  end.

(** [os.path.join(a, b)] of posixpath, for two components. *)
Definition os_path_join (a b : string) : string :=
  if starts_with_sep b then b
  else if bool_decide (a = EmptyString) || ends_with_sep a then a +:+ b
  else a +:+ "/" +:+ b.

(** ** Callbacks, datasets, keyword arguments *)

(** A Keras callback object: its class and the state training mutates. *)
Inductive callback :=
| EarlyStopping (patience : Z) (wait : nat)
| Callback (name : string) (state : nat).

(** [isinstance(callback, tf.keras.callbacks.EarlyStopping)] *)
Definition isinstance_EarlyStopping (cb : callback) : bool :=
  match cb with EarlyStopping _ _ => true | Callback _ _ => false end.

(** The elements of a [tf.data.Dataset], in order. *)
Definition dataset := list nat.

(** Values of the [fit_kwargs] dictionary. [VList l] is a reference to the
    list object at address [l]. *)
Inductive value :=
| VNone
| VInt (n : Z)
| VDataset (d : dataset)
| VList (l : nat).

Abbreviation kwargs := (gmap string value).

(** ** The store of mutable objects *)

(** Callback objects and list objects live in a store and are referred to by
    address, so that two names for one list see each other's updates. A list
    object holds the addresses of its elements. *)
Record heap := Heap {
  callback_objs : list callback;
  list_objs : list (list nat);
}.

Definition list_items (h : heap) (l : nat) : list nat :=
  default [] (list_objs h !! l).

(** The callbacks a list holds, by value. *)
Definition list_values (h : heap) (l : nat) : list callback :=
  omap (λ a, callback_objs h !! a) (list_items h l).

Definition alloc_callback (cb : callback) (h : heap) : nat * heap :=
  (length (callback_objs h), Heap (callback_objs h ++ [cb]) (list_objs h)).

Definition alloc_list (items : list nat) (h : heap) : nat * heap :=
  (length (list_objs h), Heap (callback_objs h) (list_objs h ++ [items])).

(** [l.append(a)] *)
Definition list_append (l a : nat) (h : heap) : heap :=
  Heap (callback_objs h) (<[l := list_items h l ++ [a]]> (list_objs h)).

(** [copy.deepcopy] of the elements of a list: every callback object is
    copied to a fresh address; [memo] sends an object already copied to its
    copy, so an object that occurs twice is copied once. An address that
    holds no object is kept. *)
Fixpoint deepcopy_items (items : list nat) (memo : gmap nat nat)
    (objs : list callback) : list nat * list callback :=
  match items with
  | [] => ([], objs)
  | a :: items' =>
      match memo !! a with
      | Some a' =>
          let '(r, objs') := deepcopy_items items' memo objs in (a' :: r, objs')
      | None =>
          match objs !! a with
          | Some cb =>
              let a' := length objs in
              let '(r, objs') :=
                deepcopy_items items' (<[a := a']> memo) (objs ++ [cb]) in
              (a' :: r, objs')
          | None =>
              let '(r, objs') := deepcopy_items items' memo objs in
              (a :: r, objs')
          end
      end
  end.

(** [copy.deepcopy(l)] for a list of callbacks. *)
Definition deepcopy (l : nat) (h : heap) : nat * heap :=
  let '(items', objs') := deepcopy_items (list_items h l) ∅ (callback_objs h) in
  (length (list_objs h), Heap objs' (list_objs h ++ [items'])).

(** ** Trials, models, observable calls *)

Definition HyperParameters := list (string * Z).

Record trial := Trial {
  trial_id : string;
  hyperparameters : HyperParameters;
  score : Z;
}.

Record model := Model {
  model_hp : HyperParameters;
  model_weights : nat;
}.

(** The calls the tuner makes to its collaborators, with their arguments;
    for a call that receives a callback list, also the callbacks the list
    holds when the call is made. *)
Inductive event :=
| EBaseSearch (kw : kwargs) (callbacks_seen : list callback)
| EGetBestTrials (n : nat)
| EBuild (hp : HyperParameters)
| EFit (m : model) (kw : kwargs) (callbacks_seen : list callback)
| EGetBestModels
| ESaveWeights (m : model) (path : string)
| ELoadWeights (path : string).

(** The callbacks of the list passed as [callbacks=...]. *)
Definition callbacks_seen_by (kw : kwargs) (h : heap) : list callback :=
  match kw !! "callbacks" with
  | Some (VList l) => list_values h l
  | _ => []
  end.

(** ** The tuner *)

Section AutoTuner.
(** [E] is the state of the tuning engine the class inherits from (the
    oracle and its trials). The engine, the hypermodel and Keras are
    collaborators: [base_search] is [super().search], [get_best_trials] is
    [self.oracle.get_best_trials], [hypermodel_build] is
    [self.hypermodel.build], [model_fit] is [model.fit] and
    [get_best_models] is [super().get_best_models]. A collaborator that
    receives keyword arguments may update the objects of the store. *)
Context {E : Type}.
Variable base_search : kwargs → heap → E → option exn * heap * E.
Variable get_best_trials : E → nat → list trial.
Variable hypermodel_build : HyperParameters → model.
Variable model_fit : model → kwargs → heap → result model * heap.
Variable get_best_models : E → list model.

(** The tuner instance and what it can reach. [project_dir] is the path
    the engine joins from its [directory] and [project_name]; [files] are
    the weight files on disk and [dirs] the directories that exist there. *)
Record world := World {
  store : heap;
  engine : E;
  finished : bool;
  project_dir : string;
  files : gmap string nat;
  dirs : gset string;
  trace : list event;
}.

Definition set_store (h : heap) (w : world) : world :=
  World h (engine w) (finished w) (project_dir w) (files w) (dirs w) (trace w).
Definition set_engine (e : E) (w : world) : world :=
  World (store w) e (finished w) (project_dir w) (files w) (dirs w) (trace w).
Definition set_finished (b : bool) (w : world) : world :=
  World (store w) (engine w) b (project_dir w) (files w) (dirs w) (trace w).
Definition set_files (f : gmap string nat) (w : world) : world :=
  World (store w) (engine w) (finished w) (project_dir w) f (dirs w) (trace w).
Definition set_dirs (ds : gset string) (w : world) : world :=
  World (store w) (engine w) (finished w) (project_dir w) (files w) ds (trace w).
Definition log (ev : event) (w : world) : world :=
  World (store w) (engine w) (finished w) (project_dir w) (files w) (dirs w)
    (trace w ++ [ev]).

(** Computations that read and update the world and may raise; what was
    done before an exception stays done. *)
Definition M (A : Type) : Type := world → result A * world.

#[global] Instance M_ret : MRet M := λ A a w, (Return a, w).
#[global] Instance M_bind : MBind M := λ A B f m w,
  match m w with
  | (Return a, w') => f a w'
  | (Raise e, w') => (Raise e, w')
  end.

Definition raise {A} (e : exn) : M A := λ w, (Raise e, w).
Definition get {A} (f : world → A) : M A := λ w, (Return (f w), w).
Definition modify (f : world → world) : M unit := λ w, (Return (), f w).
(** An allocation: the store changes and an address comes back. *)
Definition alloc (f : heap → nat * heap) : M nat := λ w,
  let '(a, h) := f (store w) in (Return a, set_store h w).

(** [not callbacks], for [None] or a list *)
Definition not_callbacks (callbacks : option nat) : M bool :=
  match callbacks with
  | None => mret true
  | Some l => get (λ w, bool_decide (list_items (store w) l = []))
  end.

(** [self._deepcopy_callbacks(callbacks)], a method of the engine: the
    [copy.deepcopy] of the list. The callbacks here are plain data, which
    can always be copied. *)
Definition _deepcopy_callbacks (callbacks : nat) : M nat :=
  alloc (deepcopy callbacks).

(** [any([isinstance(callback, EarlyStopping) for callback in callbacks])] *)
Definition any_EarlyStopping (callbacks : nat) : M bool :=
  get (λ w, existsb isinstance_EarlyStopping (list_values (store w) callbacks)).

(** [xs[0]] *)
Definition first {A} (xs : list A) : M A :=
  match xs with
  | x :: _ => mret x
  | [] => raise IndexError
  end.

(** [kw[key]] *)
Definition getitem (kw : kwargs) (key : string) : M value :=
  match kw !! key with
  | Some v => mret v
  | None => raise (KeyError key)
  end.

(** The attribute [concatenate] of a value: only a dataset has it. *)
Definition getattr_concatenate (v : value) : M dataset :=
  match v with
  | VDataset d => mret d
  | _ => raise (AttributeError "concatenate")
  end.

(** [d.concatenate(v)]: the datasets are joined; the method reads the
    attribute [element_spec] of its argument, which only a dataset has. *)
Definition concatenate (d : dataset) (v : value) : M value :=
  match v with
  | VDataset d' => mret (VDataset (d ++ d'))
  | _ => raise (AttributeError "element_spec")
  end.

(** [super().search] called with the keyword arguments [kw] *)
Definition super_search (kw : kwargs) : M unit := λ w,
  let w1 := log (EBaseSearch kw (callbacks_seen_by kw (store w))) w in
  let '(r, h, e) := base_search kw (store w1) (engine w1) in
  let w2 := set_engine e (set_store h w1) in
  match r with
  | None => (Return (), w2)
  | Some ex => (Raise ex, w2)
  end.

(** [self.oracle.get_best_trials(n)] *)
Definition oracle_get_best_trials (n : nat) : M (list trial) :=
  modify (log (EGetBestTrials n));;
  get (λ w, get_best_trials (engine w) n).

(** [self.hypermodel.build(hp)] *)
Definition build (hp : HyperParameters) : M model :=
  modify (log (EBuild hp));;
  mret (hypermodel_build hp).

(** [model.fit] called with the keyword arguments [kw]; the fitted model
    comes back. *)
Definition fit (m : model) (kw : kwargs) : M model := λ w,
  let w1 := log (EFit m kw (callbacks_seen_by kw (store w))) w in
  let '(r, h) := model_fit m kw (store w1) in
  (r, set_store h w1).

(** [super().get_best_models()] *)
Definition super_get_best_models : M (list model) :=
  modify (log EGetBestModels);;
  get (λ w, get_best_models (engine w)).

(** [self.project_dir], the property the engine defines: it joins
    [directory] and [project_name], calls [utils.create_directory] on the
    result, which makes the directory when it is missing, and returns it. *)
Definition self_project_dir : M string := λ w,
  (Return (project_dir w), set_dirs ({[project_dir w]} ∪ dirs w) w).

(** The value of [self.best_model_path] *)
Definition best_model_path (w : world) : string :=
  os_path_join (project_dir w) "best_model".

(** [self.best_model_path], the property of [AutoTuner]:
    [return os.path.join(self.project_dir, 'best_model')] *)
Definition self_best_model_path : M string :=
  dir ← self_project_dir;
  mret (os_path_join dir "best_model").

(** [model.save_weights(path)] *)
Definition save_weights (m : model) (path : string) : M unit :=
  modify (log (ESaveWeights m path));;
  modify (λ w, set_files (<[path := model_weights m]> (files w)) w).

(** [model.load_weights(path)] *)
Definition load_weights (m : model) (path : string) : M model :=
  modify (log (ELoadWeights path));;
  f ← get files;
  match f !! path with
  | Some wts => mret (Model (model_hp m) wts)
  | None => raise (NotFoundError path)
  end.

(** [AutoTuner.__init__]: the engine's constructor has run and left the
    tuner with [e], [dir] and the store [h]; the flag is cleared. The disk
    holds the weight files [f] and, so far, no directory. *)
Definition init (h : heap) (e : E) (dir : string) (f : gmap string nat) : world :=
  World h e false dir f ∅ [].

(** [AutoTuner._populate_initial_space] *)
Definition _populate_initial_space : M unit := mret ().

(** [AutoTuner.get_best_model] *)
Definition get_best_model : M model :=
  models ← super_get_best_models;
  model ← first models;
  path ← self_best_model_path;
  load_weights model path.

(** The first block of [AutoTuner.search], "Insert early-stopping for
    acceleration": [callbacks] defaults to a new empty list, the working
    list [new_callbacks] is its deep copy, and an early-stopping callback
    is appended to the copy when [callbacks] has none. Both names are
    used afterwards. *)
Definition insert_early_stopping (callbacks : option nat) : M (nat * nat) :=
  empty ← not_callbacks callbacks;
  callbacks ← (if (empty : bool) then alloc (alloc_list [])
               else mret (default 0 callbacks));
  new_callbacks ← _deepcopy_callbacks callbacks;
  has_es ← any_EarlyStopping callbacks;
  (if negb has_es then
     es ← alloc (alloc_callback (EarlyStopping 10 0));
     modify (λ w, set_store (list_append new_callbacks es (store w)) w)
   else mret ());;
  mret (callbacks, new_callbacks).

(** [fit_kwargs['x'] = fit_kwargs['x'].concatenate(fit_kwargs['validation_data'])] *)
Definition concatenate_validation_data (fit_kwargs : kwargs) : M kwargs :=
  x ← getitem fit_kwargs "x";
  x_concatenate ← getattr_concatenate x;
  validation_data ← getitem fit_kwargs "validation_data";
  x ← concatenate x_concatenate validation_data;
  mret (<["x" := x]> fit_kwargs).

(** The second block of [AutoTuner.search], "Fully train the best model
    with original callbacks": the model whose weights are saved. *)
Definition fully_train (callbacks : nat) (fit_on_val_data : bool)
    (fit_kwargs : kwargs) : M model :=
  has_es ← any_EarlyStopping callbacks;
  if negb has_es || fit_on_val_data then
    best_trials ← oracle_get_best_trials 1;
    best_trial ← first best_trials;
    let best_hp := hyperparameters best_trial in
    copied ← _deepcopy_callbacks callbacks;
    let fit_kwargs := <["callbacks" := VList copied]> fit_kwargs in
    fit_kwargs ← (if fit_on_val_data
                  then concatenate_validation_data fit_kwargs
                  else mret fit_kwargs);
    model ← build best_hp;
    fit model fit_kwargs
  else
    models ← super_get_best_models;
    first models.

(** [AutoTuner.search] *)
Definition search (callbacks : option nat) (fit_on_val_data : bool)
    (fit_kwargs : kwargs) : M unit :=
  done ← get finished;
  if (done : bool) then mret () else
  '(callbacks, new_callbacks) ← insert_early_stopping callbacks;
  super_search (<["callbacks" := VList new_callbacks]> fit_kwargs);;
  model ← fully_train callbacks fit_on_val_data fit_kwargs;
  path ← self_best_model_path;
  save_weights model path;;
  modify (set_finished true).

(** The methods of an [AutoTuner], to speak of any sequence of calls. *)
Inductive method :=
| CallSearch (callbacks : option nat) (fit_on_val_data : bool) (fit_kwargs : kwargs)
| CallGetBestModel
| CallPopulateInitialSpace
| ReadBestModelPath.

Definition call (c : method) (w : world) : world :=
  match c with
  | CallSearch callbacks fit_on_val_data fit_kwargs =>
      (search callbacks fit_on_val_data fit_kwargs w).2
  | CallGetBestModel => (get_best_model w).2
  | CallPopulateInitialSpace => (_populate_initial_space w).2
  | ReadBestModelPath => (self_best_model_path w).2
  end.

Definition calls (cs : list method) (w : world) : world :=
  foldl (λ w c, call c w) w cs.

End AutoTuner.

Arguments world : clear implicits.
Arguments M : clear implicits.

(** ** Vocabulary of the properties *)

(** The callbacks of the list the caller supplied, by value. *)
Definition caller_callbacks (h : heap) (callbacks : option nat) : list callback :=
  match callbacks with
  | None => []
  | Some l => list_values h l
  end.

(** Did the caller supply an early-stopping callback? *)
Definition caller_has_early_stopping (h : heap) (callbacks : option nat) : bool :=
  existsb isinstance_EarlyStopping (caller_callbacks h callbacks).

(** The caller's list holds callback objects of the store. *)
Definition well_formed_callbacks (h : heap) (callbacks : option nat) : Prop :=
  match callbacks with
  | None => True
  | Some l => l < length (list_objs h) ∧
              ∀ a, a ∈ list_items h l → a < length (callback_objs h)
  end.

(** The caller's keyword arguments carry no reference to a list. *)
Definition no_list_refs (kw : kwargs) : Prop :=
  ∀ k l, kw !! k ≠ Some (VList l).

(** A collaborator leaves alone every object it cannot reach from its
    keyword arguments: a list that no argument refers to, a callback that is
    in no list an argument refers to. *)
Definition respects_frame (g : kwargs → heap → heap) : Prop :=
  ∀ kw h,
    (∀ l, l < length (list_objs h) →
          (∀ k, kw !! k ≠ Some (VList l)) →
          list_objs (g kw h) !! l = list_objs h !! l) ∧
    (∀ a, a < length (callback_objs h) →
          (∀ k l, kw !! k = Some (VList l) → a ∉ list_items h l) →
          callback_objs (g kw h) !! a = callback_objs h !! a).

(** Every object of [h0] is in [h], unchanged. *)
Definition heap_extends (h0 h : heap) : Prop :=
  callback_objs h0 `prefix_of` callback_objs h ∧
  list_objs h0 `prefix_of` list_objs h.

(** Events of the retrain branch and of the other branch. *)
Definition is_retrain_event (ev : event) : bool :=
  match ev with
  | EGetBestTrials _ | EBuild _ | EFit _ _ _ => true
  | _ => false
  end.

Definition is_tracked_model_event (ev : event) : bool :=
  match ev with EGetBestModels => true | _ => false end.

Definition is_save_event (ev : event) : bool :=
  match ev with ESaveWeights _ _ => true | _ => false end.

Definition is_fit_event (ev : event) : bool :=
  match ev with EFit _ _ _ => true | _ => false end.

Definition is_base_search_event (ev : event) : bool :=
  match ev with EBaseSearch _ _ => true | _ => false end.

(** How many events of a kind a trace holds. *)
Definition count_events (kind : event → bool) (evs : list event) : nat :=
  length (filter (λ ev, kind ev = true) evs).

(** ** A run with concrete collaborators *)

Module Demo.

(** Training touches the state of a callback. *)
Definition touch (cb : callback) : callback :=
  match cb with
  | EarlyStopping p n => EarlyStopping p (S n)
  | Callback name n => Callback name (S n)
  end.

(** A collaborator that touches every callback of the list it is given
    under [callbacks], and drops the first element of that list. *)
Definition use_callbacks (kw : kwargs) (h : heap) : heap :=
  match kw !! "callbacks" with
  | Some (VList l) =>
      Heap (foldr (λ a objs, alter touch a objs) (callback_objs h) (list_items h l))
           (alter (drop 1) l (list_objs h))
  | _ => h
  end.

(** The engine state counts the trials that were run. *)
Definition base_search (kw : kwargs) (h : heap) (e : nat) : option exn * heap * nat :=
  (None, use_callbacks kw h, e + 3).

Definition get_best_trials (e : nat) (n : nat) : list trial :=
  if decide (e = 0) then []
  else take n [Trial "trial_2" [("units", 32%Z)] 91; Trial "trial_0" [("units", 16%Z)] 80].

Definition hypermodel_build (hp : HyperParameters) : model := Model hp 0.

Definition model_fit (m : model) (kw : kwargs) (h : heap) : result model * heap :=
  (Return (Model (model_hp m)
             (match kw !! "x" with Some (VDataset d) => length d | _ => 0 end)),
   use_callbacks kw h).

Definition get_best_models (e : nat) : list model :=
  if decide (e = 0) then [] else [Model [("units", 32%Z)] 7].

Definition search := search base_search get_best_trials hypermodel_build
                       model_fit get_best_models.

(** A store with two callbacks and the caller's lists: list 0 holds a
    plain callback, list 1 holds both, list 2 is empty. *)
Definition store0 : heap :=
  Heap [Callback "logger" 0; EarlyStopping 3 0] [[0]; [0; 1]; []].

Definition tuner0 : world nat := init store0 0 "/tmp/proj" ∅.

Definition train : dataset := seq 0 100.
Definition val : dataset := seq 100 20.

Definition fit_kwargs0 : kwargs :=
  <["x" := VDataset train]> (<["validation_data" := VDataset val]> (<["epochs" := VInt 5]> ∅)).

Definition fit_kwargs_no_val : kwargs :=
  <["x" := VDataset train]> (<["epochs" := VInt 5]> ∅).

(** Calls on the new tuner: the caller's list has no early-stopping
    callback ([run_plain]), has one ([run_es]), is [None] ([run_none]);
    with the validation data added to the final fit ([run_val]), and
    asked for but not supplied ([run_no_val]). *)
Definition run_plain := search (Some 0) false fit_kwargs0 tuner0.
Definition run_es := search (Some 1) false fit_kwargs0 tuner0.
Definition run_none := search None false fit_kwargs0 tuner0.
Definition run_val := search (Some 1) true fit_kwargs0 tuner0.
Definition run_no_val := search None true fit_kwargs_no_val tuner0.

End Demo.

(** ** The blocks of [search], as functions of the store *)

(** [callbacks], once defaulted to a new empty list. *)
Definition default_callbacks (callbacks : option nat) (h : heap) : nat * heap :=
  match callbacks with
  | Some l => if bool_decide (list_items h l = []) then alloc_list [] h else (l, h)
  | None => alloc_list [] h
  end.

(** [callbacks], [new_callbacks] and the store after the first block. *)
Definition working_lists (callbacks : option nat) (h : heap) : nat * nat * heap :=
  let '(cl, hb) := default_callbacks callbacks h in
  let '(nc, h1) := deepcopy cl hb in
  if existsb isinstance_EarlyStopping (list_values h1 cl) then (cl, nc, h1)
  else
    let '(es, h2) := alloc_callback (EarlyStopping 10 0) h1 in
    (cl, nc, list_append nc es h2).

(** The keyword arguments of the final fit, or the exception that building
    them raises. *)
Definition final_fit_kwargs (fit_on_val_data : bool) (kw : kwargs) : result kwargs :=
  if fit_on_val_data then
    match kw !! "x" with
    | None => Raise (KeyError "x")
    | Some (VDataset d) =>
        match kw !! "validation_data" with
        | None => Raise (KeyError "validation_data")
        | Some (VDataset d') => Return (<["x" := VDataset (d ++ d')]> kw)
        | Some _ => Raise (AttributeError "element_spec")
        end
    | Some _ => Raise (AttributeError "concatenate")
    end
  else Return kw.
Arguments final_fit_kwargs : simpl never.

(** The keyword arguments an event carries. *)
Definition event_kwargs (ev : event) : option kwargs :=
  match ev with
  | EBaseSearch kw _ | EFit _ kw _ => Some kw
  | _ => None
  end.

(** ** The classes of the module *)

(** [AutoTuner], the classes the registry holds, and the classes of
    kerastuner they are built on. *)
Inductive pyclass :=
| AutoTuner
| Registered (c : tuner_class)
| KerasTuner (name : string).

#[global] Instance pyclass_eq_dec : EqDecision pyclass.
Proof. solve_decision. Defined.

(** The bases of each class statement, in the order written. The bases of a
    kerastuner class are not in this module. *)
Definition bases (c : pyclass) : list pyclass :=
  match c with
  | AutoTuner => [KerasTuner "engine.multi_execution_tuner.MultiExecutionTuner"]
  | Registered RandomSearch => [AutoTuner; KerasTuner "RandomSearch"]
  | Registered Hyperband => [AutoTuner; KerasTuner "Hyperband"]
  | Registered BayesianOptimization => [AutoTuner; KerasTuner "BayesianOptimization"]
  | Registered Greedy => [AutoTuner]
  | Registered ImageClassifierTuner => [Registered Greedy]
  | KerasTuner _ => []
  end.

(** The methods and properties each class body defines. *)
Definition own_methods (c : pyclass) : list string :=
  match c with
  | AutoTuner =>
      ["__init__"; "_populate_initial_space"; "get_best_model"; "search";
       "best_model_path"]
  | Registered Greedy | Registered ImageClassifierTuner => ["__init__"]
  | _ => []
  end.

(** [issubclass(c, d)], through at most [n] class statements. *)
Fixpoint issubclass_within (n : nat) (c d : pyclass) : bool :=
  bool_decide (c = d) ||
  match n with
  | 0 => false
  | S n' => existsb (λ b, issubclass_within n' b d) (bases c)
  end.

(** The module's longest chain of bases has three steps. *)
Definition issubclass (c d : pyclass) : bool := issubclass_within 3 c d.

(** The class whose body gives [c] its attribute [name]: the first one
    along the chain of first bases. The method resolution order of each class
    of the module starts with that chain up to [AutoTuner], which is no
    ancestor of a kerastuner class; past it the attribute is kerastuner's
    ([None]). *)
Fixpoint resolve_within (n : nat) (c : pyclass) (name : string) : option pyclass :=
  if bool_decide (name ∈ own_methods c) then Some c
  else match n, bases c with
       | S n', b :: _ => resolve_within n' b name
       | _, _ => None
       end.

Definition resolve (c : pyclass) (name : string) : option pyclass :=
  resolve_within 3 c name.

(** ** Construction of a tuner *)

(** The values a constructor is called with; [AObj] is any other object
    (a hypermodel, an objective, an oracle, a list of hyperparameters). *)
Inductive arg :=
| ANone
| ABool (b : bool)
| AInt (n : Z)
| AStr (s : string)
| AObj (id : nat).

#[global] Instance arg_eq_dec : EqDecision arg.
Proof. solve_decision. Defined.

(** The constructors a tuner's [__init__] calls, with the keyword arguments
    they are given. *)
Inductive ctor_event :=
| ENewGreedyOracle (kw : gmap string arg)
| EEngineInit (c : tuner_class) (kw : gmap string arg).

(** The parameters of [Greedy.__init__] that have a name. *)
Definition greedy_params : list string :=
  ["hypermodel"; "objective"; "max_trials"; "initial_hps"; "seed";
   "hyperparameters"; "tune_new_entries"; "allow_new_entries"].

(** The ones of them that only the oracle gets. *)
Definition oracle_only_params : list string :=
  ["objective"; "max_trials"; "initial_hps"; "seed"; "hyperparameters";
   "tune_new_entries"; "allow_new_entries"].

Section Constructors.
(** [GreedyOracle] is [oracle_module.GreedyOracle], [engine_init c] is the
    [__init__] that follows [AutoTuner] in the resolution order of [c] (it
    gives the engine its state and its project directory), [INITIAL_HPS] is
    [const.INITIAL_HPS]. Constructors are called with keyword arguments. *)
Context {E : Type}.
Variable GreedyOracle : gmap string arg → result arg.
Variable engine_init : tuner_class → gmap string arg → result (E * string).
Variable INITIAL_HPS : gmap string arg.

(** Computations that call constructors and may raise. *)
Definition ctor (A : Type) : Type := list ctor_event → result A * list ctor_event.

#[global] Instance ctor_ret : MRet ctor := λ A a evs, (Return a, evs).
#[global] Instance ctor_bind : MBind ctor := λ A B f m evs,
  match m evs with
  | (Return a, evs') => f a evs'
  | (Raise e, evs') => (Raise e, evs')
  end.

Definition ctor_raise {A} (e : exn) : ctor A := λ evs, (Raise e, evs).

(** A tuner instance: its class, its attribute [seed] when it has one, and
    the state [search] works on. *)
Record tuner := Tuner {
  tuner_class_of : tuner_class;
  seed : option arg;
  tuner_state : world E;
}.

(** A parameter with no default: the call fails with a [TypeError] when it
    is not given. The message stands for the interpreter's, whose wording
    is not modelled. *)
Definition required (kw : gmap string arg) (name : string) : ctor arg :=
  match kw !! name with
  | Some v => mret v
  | None => ctor_raise (TypeError ("missing required argument " +:+ name))
  end.

(** The keyword arguments of a call that gives [name=v] and spreads the
    dictionary [kwargs]: a name given twice is a [TypeError]. The message
    stands for the interpreter's, whose wording is not modelled. *)
Definition with_keyword (name : string) (v : arg) (kwargs : gmap string arg)
    : ctor (gmap string arg) :=
  match kwargs !! name with
  | Some _ =>
      ctor_raise (TypeError ("got multiple values for keyword argument " +:+ name))
  | None => mret (<[name := v]> kwargs)
  end.

(** [oracle_module.GreedyOracle] called with the keyword arguments [kw] *)
Definition new_GreedyOracle (kw : gmap string arg) : ctor arg := λ evs,
  (GreedyOracle kw, evs ++ [ENewGreedyOracle kw]).

(** [super().__init__] of [AutoTuner.__init__], for an instance of [c] *)
Definition super__init__ (c : tuner_class) (kwargs : gmap string arg)
    : ctor (E * string) := λ evs,
  (engine_init c kwargs, evs ++ [EEngineInit c kwargs]).

(** [AutoTuner.__init__], in the store [h] with the files [f] *)
Definition AutoTuner__init__ (c : tuner_class) (h : heap) (f : gmap string nat)
    (kwargs : gmap string arg) : ctor (world E) :=
  '(e, dir) ← super__init__ c kwargs;
  mret (init h e dir f).

(** [Greedy.__init__] *)
Definition Greedy__init__ (c : tuner_class) (h : heap) (f : gmap string nat)
    (kw : gmap string arg) : ctor tuner :=
  hypermodel ← required kw "hypermodel";
  objective ← required kw "objective";
  max_trials ← required kw "max_trials";
  let initial_hps := default ANone (kw !! "initial_hps") in
  let seed := default ANone (kw !! "seed") in
  let hyperparameters := default ANone (kw !! "hyperparameters") in
  let tune_new_entries := default (ABool true) (kw !! "tune_new_entries") in
  let allow_new_entries := default (ABool true) (kw !! "allow_new_entries") in
  let kwargs := foldr delete kw greedy_params in
  oracle ← new_GreedyOracle
    (<["hypermodel" := hypermodel]> (<["objective" := objective]>
     (<["max_trials" := max_trials]> (<["initial_hps" := initial_hps]>
     (<["seed" := seed]> (<["hyperparameters" := hyperparameters]>
     (<["tune_new_entries" := tune_new_entries]>
     (<["allow_new_entries" := allow_new_entries]> ∅))))))));
  kwargs ← with_keyword "oracle" oracle kwargs;
  kwargs ← with_keyword "hypermodel" hypermodel kwargs;
  w ← AutoTuner__init__ c h f kwargs;
  mret (Tuner c (Some seed) w).

(** [ImageClassifierTuner.__init__] *)
Definition ImageClassifierTuner__init__ (c : tuner_class) (h : heap)
    (f : gmap string nat) (kwargs : gmap string arg) : ctor tuner :=
  initial_hps ← match INITIAL_HPS !! "image_classifier" with
                | Some v => mret v
                | None => ctor_raise (KeyError "image_classifier")
                end;
  kw ← with_keyword "initial_hps" initial_hps kwargs;
  Greedy__init__ c h f kw.

(** A call of the class [c] with the keyword arguments [kw]: the
    [__init__] that [c] resolves to is run on a new instance. *)
Definition construct (c : tuner_class) (h : heap) (f : gmap string nat)
    (kw : gmap string arg) : ctor tuner :=
  match resolve (Registered c) "__init__" with
  | Some (Registered ImageClassifierTuner) => ImageClassifierTuner__init__ c h f kw
  | Some (Registered Greedy) => Greedy__init__ c h f kw
  | _ => w ← AutoTuner__init__ c h f kw; mret (Tuner c None w)
  end.

End Constructors.

Arguments tuner : clear implicits.
Arguments ctor : clear implicits.

(** The keyword arguments [Greedy.__init__] gives the oracle, and the ones
    it gives [AutoTuner.__init__], as functions of its own. *)
Definition greedy_oracle_kwargs (kw : gmap string arg) : gmap string arg :=
  <["hypermodel" := default ANone (kw !! "hypermodel")]>
  (<["objective" := default ANone (kw !! "objective")]>
  (<["max_trials" := default ANone (kw !! "max_trials")]>
  (<["initial_hps" := default ANone (kw !! "initial_hps")]>
  (<["seed" := default ANone (kw !! "seed")]>
  (<["hyperparameters" := default ANone (kw !! "hyperparameters")]>
  (<["tune_new_entries" := default (ABool true) (kw !! "tune_new_entries")]>
  (<["allow_new_entries" := default (ABool true) (kw !! "allow_new_entries")]>
   ∅))))))).

Definition greedy_engine_kwargs (kw : gmap string arg) (oracle : arg)
    : gmap string arg :=
  <["hypermodel" := default ANone (kw !! "hypermodel")]>
  (<["oracle" := oracle]> (foldr delete kw greedy_params)).

(** A construction with concrete collaborators: the oracle is object 7, the
    engine starts with no trial in the directory its [directory] argument
    names. *)
Module DemoNew.

Definition GreedyOracle (kw : gmap string arg) : result arg := Return (AObj 7).

Definition engine_init (c : tuner_class) (kw : gmap string arg) : result (nat * string) :=
  match kw !! "directory" with
  | Some (AStr dir) => Return (0, dir)
  | _ => Return (0, ".")
  end.

Definition INITIAL_HPS : gmap string arg := <["image_classifier" := AObj 3]> ∅.

Definition construct := construct GreedyOracle engine_init INITIAL_HPS.

Definition kw0 : gmap string arg :=
  <["hypermodel" := AObj 1]> (<["objective" := AStr "val_loss"]>
  (<["max_trials" := AInt 5]> (<["directory" := AStr "/tmp/proj"]> ∅))).

Definition new_greedy := construct Greedy Demo.store0 ∅ kw0 [].
Definition new_image := construct ImageClassifierTuner Demo.store0 ∅ kw0 [].
Definition new_random := construct RandomSearch Demo.store0 ∅ kw0 [].

(** Calls that are refused: an oracle given, initial hyperparameters given
    to the image classifier tuner, no objective. *)
Definition new_with_oracle :=
  construct Greedy Demo.store0 ∅ (<["oracle" := AObj 9]> kw0) [].
Definition new_with_initial_hps :=
  construct ImageClassifierTuner Demo.store0 ∅ (<["initial_hps" := AObj 9]> kw0) [].
Definition new_without_objective :=
  construct Greedy Demo.store0 ∅ (delete "objective" kw0) [].

(** A search whose oracle has no trial to give, and one that is to add the
    validation data to a training input that was not passed. *)
Definition run_no_trials :=
  search Demo.base_search (λ _ _, []) Demo.hypermodel_build Demo.model_fit
    Demo.get_best_models (Some 0) false Demo.fit_kwargs0 Demo.tuner0.

Definition fit_kwargs_no_x : kwargs :=
  <["validation_data" := VDataset Demo.val]> (<["epochs" := VInt 5]> ∅).

Definition run_no_x := Demo.search None true fit_kwargs_no_x Demo.tuner0.

End DemoNew.

(** ** Facts about the store *)

Lemma prefix_of_lookups {A} (l1 l2 : list A) :
  (∀ i, i < length l1 → l2 !! i = l1 !! i) → l1 `prefix_of` l2.
Proof.
  intros H. exists (drop (length l1) l2).
  rewrite <- (take_drop (length l1) l2) at 1. f_equal.
  apply list_eq. intros i. destruct (decide (i < length l1)) as [Hi|Hi].
  - rewrite lookup_take_lt by done. by apply H.
  - rewrite lookup_take_ge by lia. symmetry. apply lookup_ge_None. lia.
Qed.

Lemma prefix_lookup_eq {A} (l1 l2 : list A) i :
  l1 `prefix_of` l2 → i < length l1 → l2 !! i = l1 !! i.
Proof.
  intros [k ->] Hi. by apply lookup_app_l.
Qed.

#[global] Instance heap_extends_preorder : PreOrder heap_extends.
Proof.
  split.
  - intros h. by split.
  - intros h1 h2 h3 [H1 H2] [H3 H4]. split; by etrans.
Qed.

Lemma heap_extends_alloc_callback cb h :
  heap_extends h (alloc_callback cb h).2.
Proof. split; simpl; [by apply prefix_app_r | done]. Qed.

Lemma heap_extends_alloc_list items h :
  heap_extends h (alloc_list items h).2.
Proof. split; simpl; [done | by apply prefix_app_r]. Qed.

(** Appending to a list that is not among the objects of [h0] keeps them. *)
Lemma heap_extends_list_append h0 h l a :
  heap_extends h0 h → length (list_objs h0) ≤ l →
  heap_extends h0 (list_append l a h).
Proof.
  intros [Hc Hl] Hge. split; simpl; [done |].
  apply prefix_of_lookups. intros i Hi.
  rewrite list_lookup_insert_ne by lia. by apply prefix_lookup_eq.
Qed.

Lemma deepcopy_items_prefix items : ∀ memo objs,
  objs `prefix_of` (deepcopy_items items memo objs).2.
Proof.
  induction items as [|a items IH]; intros memo objs; simpl; [done |].
  destruct (memo !! a) as [a'|].
  - specialize (IH memo objs).
    destruct (deepcopy_items items memo objs) as [r objs']. done.
  - destruct (objs !! a) as [cb|].
    + specialize (IH (<[a:=length objs]> memo) (objs ++ [cb])).
      destruct (deepcopy_items items _ (objs ++ [cb])) as [r objs']. simpl in *.
      by eapply prefix_app_l.
    + specialize (IH memo objs).
      destruct (deepcopy_items items memo objs) as [r objs']. done.
Qed.

(** The addresses of a deep copy are all beyond [n], when the store already
    has [n] objects: a copy is a new object, and an address that is kept
    holds no object. *)
Lemma deepcopy_items_fresh n items : ∀ memo objs,
  n ≤ length objs →
  (∀ a a', memo !! a = Some a' → n ≤ a') →
  Forall (λ a', n ≤ a') (deepcopy_items items memo objs).1.
Proof.
  induction items as [|a items IH]; intros memo objs Hn Hmemo; simpl; [done |].
  destruct (memo !! a) as [a'|] eqn:Hma.
  - specialize (IH memo objs Hn Hmemo).
    destruct (deepcopy_items items memo objs) as [r objs']. simpl in *.
    constructor; eauto.
  - destruct (objs !! a) as [cb|] eqn:Hoa.
    + assert (Forall (λ a', n ≤ a')
        (deepcopy_items items (<[a:=length objs]> memo) (objs ++ [cb])).1) as IH'.
      { apply IH.
        - rewrite length_app. lia.
        - intros b b'. rewrite lookup_insert. case_decide; naive_solver. }
      destruct (deepcopy_items items _ (objs ++ [cb])) as [r objs']. simpl in *.
      by constructor.
    + specialize (IH memo objs Hn Hmemo).
      destruct (deepcopy_items items memo objs) as [r objs']. simpl in *.
      constructor; [| done]. apply lookup_ge_None_1 in Hoa. lia.
Qed.

Lemma omap_lookup_app (objs k : list callback) (items : list nat) :
  Forall (λ a, a < length objs) items →
  omap (λ a, (objs ++ k) !! a) items = omap (λ a, objs !! a) items.
Proof.
  induction 1 as [|b items Hb _ IHv]; [done |]. simpl.
  rewrite lookup_app_l by done.
  destruct (objs !! b); [f_equal |]; exact IHv.
Qed.

(** The addresses of a deep copy of callbacks of the store are addresses
    of the store. *)
Lemma deepcopy_items_valid items : ∀ memo objs,
  Forall (λ a, a < length objs) items →
  (∀ a a', memo !! a = Some a' → a' < length objs) →
  Forall (λ a', a' < length (deepcopy_items items memo objs).2)
         (deepcopy_items items memo objs).1.
Proof.
  induction items as [|a items IH]; intros memo objs Hvalid Hmemo; simpl; [done |].
  apply Forall_cons in Hvalid as [Ha Hvalid].
  destruct (lookup_lt_is_Some_2 objs a Ha) as [cb Hcb].
  destruct (memo !! a) as [a'|] eqn:Hma.
  - specialize (IH memo objs Hvalid Hmemo).
    pose proof (deepcopy_items_prefix items memo objs) as Hpre.
    destruct (deepcopy_items items memo objs) as [r objs']. simpl in *.
    constructor; [| done]. apply prefix_length in Hpre.
    specialize (Hmemo _ _ Hma). lia.
  - rewrite Hcb.
    pose proof (deepcopy_items_prefix items (<[a:=length objs]> memo) (objs ++ [cb])) as Hpre.
    assert (Forall (λ a', a' < length
        (deepcopy_items items (<[a:=length objs]> memo) (objs ++ [cb])).2)
        (deepcopy_items items (<[a:=length objs]> memo) (objs ++ [cb])).1) as IH'.
    { apply IH.
      - eapply Forall_impl; [done |]. intros b Hb. simpl in Hb.
        rewrite length_app. simpl. lia.
      - intros b b'. rewrite lookup_insert, length_app. simpl.
        case_decide; [intros [= <-]; lia |].
        intros Hb. specialize (Hmemo _ _ Hb). lia. }
    destruct (deepcopy_items items _ (objs ++ [cb])) as [r objs']. simpl in *.
    constructor; [| done]. apply prefix_length in Hpre.
    rewrite length_app in Hpre. simpl in Hpre. lia.
Qed.

(** A deep copy holds the same callbacks, by value, as the list copied. *)
Lemma deepcopy_items_values items : ∀ memo objs,
  Forall (λ a, a < length objs) items →
  (∀ a a', memo !! a = Some a' → a' < length objs ∧ objs !! a' = objs !! a) →
  omap (λ a, (deepcopy_items items memo objs).2 !! a)
       (deepcopy_items items memo objs).1
  = omap (λ a, objs !! a) items.
Proof.
  induction items as [|a items IH]; intros memo objs Hvalid Hmemo; simpl; [done |].
  apply Forall_cons in Hvalid as [Ha Hvalid].
  destruct (lookup_lt_is_Some_2 objs a Ha) as [cb Hcb].
  destruct (memo !! a) as [a'|] eqn:Hma.
  - specialize (IH memo objs Hvalid Hmemo).
    pose proof (deepcopy_items_prefix items memo objs) as Hpre.
    destruct (deepcopy_items items memo objs) as [r objs']. simpl in *.
    destruct (Hmemo _ _ Hma) as [Hlt Heq].
    rewrite (prefix_lookup_eq _ _ _ Hpre Hlt), Heq, Hcb. f_equal. exact IH.
  - rewrite Hcb.
    assert (Forall (λ b, b < length (objs ++ [cb])) items) as Hvalid'.
    { eapply Forall_impl; [done |]. intros b Hb. simpl in Hb. rewrite length_app. simpl. lia. }
    specialize (IH (<[a:=length objs]> memo) (objs ++ [cb]) Hvalid').
    pose proof (deepcopy_items_prefix items (<[a:=length objs]> memo) (objs ++ [cb])) as Hpre.
    destruct (deepcopy_items items _ (objs ++ [cb])) as [r objs']. simpl in *.
    rewrite (prefix_lookup_eq _ _ (length objs) Hpre)
      by (rewrite length_app; simpl; lia).
    rewrite list_lookup_middle by done. f_equal.
    etrans; [apply IH |].
    + intros b b'. rewrite lookup_insert. case_decide as Hab.
      * intros [= <-]. subst b. split; [rewrite length_app; simpl; lia |].
        rewrite list_lookup_middle by done. by rewrite lookup_app_l, Hcb.
      * intros Hb. destruct (Hmemo _ _ Hb) as [Hlt Heq].
        split; [rewrite length_app; simpl; lia |].
        assert (b < length objs) as Hlt'.
        { apply lookup_lt_is_Some. rewrite <- Heq. by apply lookup_lt_is_Some_2. }
        by rewrite !lookup_app_l.
    + by apply omap_lookup_app.
Qed.

Lemma deepcopy_extends l h : heap_extends h (deepcopy l h).2.
Proof.
  unfold deepcopy.
  pose proof (deepcopy_items_prefix (list_items h l) ∅ (callback_objs h)) as Hpre.
  destruct (deepcopy_items _ _ _) as [r objs']. simpl in *.
  split; simpl; [done | by apply prefix_app_r].
Qed.

Lemma deepcopy_address l h : (deepcopy l h).1 = length (list_objs h).
Proof. unfold deepcopy. by destruct (deepcopy_items _ _ _). Qed.

Lemma deepcopy_list_length l h :
  length (list_objs (deepcopy l h).2) = S (length (list_objs h)).
Proof.
  unfold deepcopy. destruct (deepcopy_items _ _ _). simpl.
  rewrite length_app. simpl. lia.
Qed.

Lemma deepcopy_list_items l h :
  list_items (deepcopy l h).2 (deepcopy l h).1
  = (deepcopy_items (list_items h l) ∅ (callback_objs h)).1.
Proof.
  unfold deepcopy, list_items at 1. destruct (deepcopy_items _ _ _) as [r objs'].
  simpl. by rewrite list_lookup_middle.
Qed.

Lemma deepcopy_fresh n l h :
  n ≤ length (callback_objs h) →
  Forall (λ a, n ≤ a) (list_items (deepcopy l h).2 (deepcopy l h).1).
Proof.
  intros Hn. rewrite deepcopy_list_items. apply deepcopy_items_fresh; [done |].
  intros a a'. by rewrite lookup_empty.
Qed.

Lemma deepcopy_values l h :
  Forall (λ a, a < length (callback_objs h)) (list_items h l) →
  list_values (deepcopy l h).2 (deepcopy l h).1 = list_values h l.
Proof.
  intros Hvalid. unfold list_values at 1. rewrite deepcopy_list_items.
  pose proof (deepcopy_items_values (list_items h l) ∅ (callback_objs h) Hvalid) as Hv.
  unfold deepcopy. destruct (deepcopy_items _ _ _) as [r objs']. simpl in *.
  apply Hv. intros a a'. by rewrite lookup_empty.
Qed.

Lemma heap_extends_list_items h0 h l :
  heap_extends h0 h → l < length (list_objs h0) →
  list_items h l = list_items h0 l.
Proof.
  intros [_ Hl] Hlt. unfold list_items. by rewrite (prefix_lookup_eq _ _ _ Hl Hlt).
Qed.

Lemma heap_extends_list_values h0 h l :
  heap_extends h0 h → l < length (list_objs h0) →
  Forall (λ a, a < length (callback_objs h0)) (list_items h0 l) →
  list_values h l = list_values h0 l.
Proof.
  intros Hext Hlt Hvalid. unfold list_values.
  rewrite (heap_extends_list_items _ _ _ Hext Hlt).
  destruct Hext as [Hc _].
  induction Hvalid as [|a items Ha _ IH]; [done |]. simpl.
  rewrite (prefix_lookup_eq _ _ _ Hc Ha).
  destruct (callback_objs h0 !! a); [f_equal |]; exact IH.
Qed.

Lemma heap_extends_lengths h0 h :
  heap_extends h0 h →
  length (callback_objs h0) ≤ length (callback_objs h) ∧
  length (list_objs h0) ≤ length (list_objs h).
Proof. intros [H1 H2]. split; by apply prefix_length. Qed.

(** A collaborator that respects the frame, given only lists that are not
    among the objects of [h0] and hold none of its callbacks, keeps every
    object of [h0]. *)
Lemma respects_frame_extends g kw h0 h :
  respects_frame g → heap_extends h0 h →
  (∀ k l, kw !! k = Some (VList l) →
          length (list_objs h0) ≤ l ∧
          Forall (λ a, length (callback_objs h0) ≤ a) (list_items h l)) →
  heap_extends h0 (g kw h).
Proof.
  intros Hg Hext Hkw. destruct (Hg kw h) as [Hlists Hcbs].
  destruct (heap_extends_lengths _ _ Hext) as [Hlc Hll].
  destruct Hext as [Hc Hl]. split; apply prefix_of_lookups; intros i Hi.
  - rewrite Hcbs; [by apply prefix_lookup_eq | lia |].
    intros k l Hk Hin. destruct (Hkw _ _ Hk) as [_ Hfresh].
    rewrite Forall_forall in Hfresh. specialize (Hfresh _ Hin). simpl in Hfresh. lia.
  - rewrite Hlists; [by apply prefix_lookup_eq | lia |].
    intros k Hk. destruct (Hkw _ _ Hk) as [Hfresh _]. lia.
Qed.

(** ** The first block of [search] *)

Lemma default_callbacks_extends callbacks h :
  heap_extends h (default_callbacks callbacks h).2.
Proof.
  unfold default_callbacks. destruct callbacks as [l|].
  - case_bool_decide; [apply heap_extends_alloc_list | done].
  - apply heap_extends_alloc_list.
Qed.

(** The defaulted list is a list of the store and holds what the caller's
    list held. *)
Lemma default_callbacks_list callbacks h :
  let '(cl, hb) := default_callbacks callbacks h in
  cl < length (list_objs hb) ∧
  list_items hb cl = match callbacks with Some l => list_items h l | None => [] end.
Proof.
  unfold default_callbacks. destruct callbacks as [l|].
  - case_bool_decide as Hempty; simpl.
    + rewrite length_app. simpl. split; [lia |].
      unfold list_items at 1. simpl. rewrite list_lookup_middle by done.
      by rewrite Hempty.
    + split; [| done]. unfold list_items in Hempty.
      destruct (list_objs h !! l) eqn:Hl; [| done]. by eapply lookup_lt_Some.
  - simpl. rewrite length_app. simpl. split; [lia |].
    unfold list_items. simpl. by rewrite list_lookup_middle.
Qed.

Lemma default_callbacks_callback_objs callbacks h :
  callback_objs (default_callbacks callbacks h).2 = callback_objs h.
Proof.
  unfold default_callbacks. destruct callbacks as [l|]; [case_bool_decide |]; done.
Qed.

Lemma default_callbacks_values callbacks h :
  well_formed_callbacks h callbacks →
  let '(cl, hb) := default_callbacks callbacks h in
  list_values hb cl = caller_callbacks h callbacks ∧
  Forall (λ a, a < length (callback_objs hb)) (list_items hb cl).
Proof.
  intros Hwf. pose proof (default_callbacks_list callbacks h) as Hlist.
  pose proof (default_callbacks_callback_objs callbacks h) as Hobjs.
  destruct (default_callbacks callbacks h) as [cl hb]. simpl in Hobjs.
  destruct Hlist as [_ Heq]. unfold list_values. rewrite Heq, Hobjs.
  destruct callbacks as [l|]; simpl; [| done].
  destruct Hwf as [_ Hitems]. split; [done |]. by apply Forall_forall.
Qed.

Lemma deepcopy_valid l h :
  Forall (λ a, a < length (callback_objs h)) (list_items h l) →
  Forall (λ a, a < length (callback_objs (deepcopy l h).2))
         (list_items (deepcopy l h).2 (deepcopy l h).1).
Proof.
  intros Hvalid. rewrite deepcopy_list_items.
  pose proof (deepcopy_items_valid (list_items h l) ∅ (callback_objs h) Hvalid) as Hv.
  unfold deepcopy. destruct (deepcopy_items _ _ _) as [r objs']. simpl in *.
  apply Hv. intros a a'. by rewrite lookup_empty.
Qed.

(** The working list is a new list and holds new callbacks only; the store
    before the block is kept. *)
Lemma working_lists_frame callbacks h :
  let '(cl0, hb) := default_callbacks callbacks h in
  let '(cl, nc, h1) := working_lists callbacks h in
  cl = cl0 ∧ heap_extends hb h1 ∧ nc = length (list_objs hb) ∧
  Forall (λ a, length (callback_objs hb) ≤ a) (list_items h1 nc).
Proof.
  unfold working_lists. destruct (default_callbacks callbacks h) as [cl hb].
  pose proof (deepcopy_extends cl hb) as Hext.
  pose proof (deepcopy_address cl hb) as Haddr.
  pose proof (deepcopy_fresh (length (callback_objs hb)) cl hb (le_n _)) as Hfresh.
  pose proof (deepcopy_list_length cl hb) as Hlen.
  destruct (deepcopy cl hb) as [nc hd]. simpl in *.
  destruct (existsb _ _); [done |].
  split; [done |]. split; [| split; [done |]].
  - apply heap_extends_list_append; [| lia].
    etrans; [exact Hext |]. apply heap_extends_alloc_callback.
  - destruct (heap_extends_lengths _ _ Hext) as [Hlc Hll].
    unfold list_items at 1. simpl.
    rewrite list_lookup_insert_eq by lia. simpl.
    apply Forall_app. split; [done |]. by repeat constructor.
Qed.

(** The working list holds the caller's callbacks, and one more
    early-stopping callback with patience 10 exactly when the caller
    supplied none. *)
Lemma working_lists_values callbacks h :
  well_formed_callbacks h callbacks →
  let '(_, nc, h1) := working_lists callbacks h in
  list_values h1 nc
  = caller_callbacks h callbacks ++
    (if caller_has_early_stopping h callbacks then [] else [EarlyStopping 10 0]).
Proof.
  intros Hwf. pose proof (default_callbacks_values callbacks h Hwf) as Hvals.
  pose proof (default_callbacks_list callbacks h) as Hlist.
  unfold working_lists, caller_has_early_stopping.
  destruct (default_callbacks callbacks h) as [cl hb].
  destruct Hvals as [Hvals Hvalid]. destruct Hlist as [Hcl _].
  pose proof (deepcopy_extends cl hb) as Hext.
  pose proof (deepcopy_address cl hb) as Haddr.
  pose proof (deepcopy_values cl hb Hvalid) as Hcopy.
  pose proof (deepcopy_valid cl hb Hvalid) as Hcopyvalid.
  pose proof (deepcopy_list_length cl hb) as Hlen.
  destruct (deepcopy cl hb) as [nc hd]. simpl in *.
  rewrite (heap_extends_list_values _ _ _ Hext Hcl Hvalid), Hvals.
  destruct (existsb _ _).
  - by rewrite app_nil_r, Hcopy.
  - simpl. rewrite <- Hvals, <- Hcopy.
    destruct (heap_extends_lengths _ _ Hext) as [Hlc Hll].
    unfold list_values, list_items at 1. simpl.
    rewrite list_lookup_insert_eq by lia. simpl.
    rewrite omap_app. simpl. rewrite list_lookup_middle by done.
    f_equal. by apply omap_lookup_app.
Qed.

(** ** Running the blocks of [search] *)

Section Runs.
Context {E : Type}.
Variable base_search : kwargs → heap → E → option exn * heap * E.
Variable get_best_trials : E → nat → list trial.
Variable hypermodel_build : HyperParameters → model.
Variable model_fit : model → kwargs → heap → result model * heap.
Variable get_best_models : E → list model.

Local Abbreviation search_ :=
  (search base_search get_best_trials hypermodel_build model_fit get_best_models).
Local Abbreviation fully_train_ :=
  (fully_train get_best_trials hypermodel_build model_fit get_best_models).

Lemma insert_early_stopping_run callbacks (w : world E) :
  insert_early_stopping callbacks w =
  let '(cl, nc, h1) := working_lists callbacks (store w) in
  (Return (cl, nc), set_store h1 w).
Proof.
  unfold insert_early_stopping, working_lists, default_callbacks, not_callbacks,
    _deepcopy_callbacks, any_EarlyStopping, alloc, get, modify,
    mbind, M_bind, mret, M_ret.
  destruct callbacks as [l|]; simpl.
  - case_bool_decide; simpl.
    + destruct (deepcopy _ _) as [nc hd]; simpl.
      destruct (existsb _ _); reflexivity.
    + destruct (deepcopy _ _) as [nc hd]; simpl.
      destruct (existsb _ _); reflexivity.
  - destruct (deepcopy _ _) as [nc hd]; simpl.
    destruct (existsb _ _); reflexivity.
Qed.

Lemma concatenate_validation_data_run kw (w : world E) :
  concatenate_validation_data kw w = (final_fit_kwargs true kw, w).
Proof.
  unfold concatenate_validation_data, final_fit_kwargs, getitem,
    getattr_concatenate, concatenate, raise, mbind, M_bind, mret, M_ret.
  destruct (kw !! "x") as [[| |d|]|]; try reflexivity.
  destruct (kw !! "validation_data") as [[| |d'|]|]; reflexivity.
Qed.

Lemma fully_train_run cl fit_on_val_data kw (w : world E) :
  fully_train_ cl fit_on_val_data kw w =
  if negb (existsb isinstance_EarlyStopping (list_values (store w) cl))
     || fit_on_val_data
  then
    let w1 := log (EGetBestTrials 1) w in
    match get_best_trials (engine w) 1 with
    | [] => (Raise IndexError, w1)
    | t :: _ =>
        let '(copied, h) := deepcopy cl (store w) in
        let w2 := set_store h w1 in
        match final_fit_kwargs fit_on_val_data (<["callbacks" := VList copied]> kw) with
        | Raise e => (Raise e, w2)
        | Return kw' =>
            fit model_fit (hypermodel_build (hyperparameters t)) kw'
              (log (EBuild (hyperparameters t)) w2)
        end
    end
  else
    let w1 := log EGetBestModels w in
    match get_best_models (engine w) with
    | [] => (Raise IndexError, w1)
    | m :: _ => (Return m, w1)
    end.
Proof.
  unfold fully_train, any_EarlyStopping, oracle_get_best_trials,
    super_get_best_models, _deepcopy_callbacks, build, alloc, get, modify.
  unfold mbind at 1, M_bind at 1. simpl.
  destruct (negb _ || fit_on_val_data) eqn:Hcond.
  - unfold mbind, M_bind, mret, M_ret. simpl.
    destruct (get_best_trials (engine w) 1) as [|t ts]; simpl; [done |].
    destruct (deepcopy cl (store w)) as [copied h]; simpl.
    destruct fit_on_val_data; simpl.
    + rewrite concatenate_validation_data_run.
      destruct (final_fit_kwargs true _); reflexivity.
    + reflexivity.
  - unfold mbind, M_bind, mret, M_ret. simpl.
    destruct (get_best_models (engine w)) as [|m ms]; reflexivity.
Qed.

Lemma search_run callbacks fit_on_val_data kw (w : world E) :
  finished w = false →
  search_ callbacks fit_on_val_data kw w =
  let '(cl, nc, h1) := working_lists callbacks (store w) in
  match super_search base_search (<["callbacks" := VList nc]> kw) (set_store h1 w) with
  | (Raise e, w2) => (Raise e, w2)
  | (Return _, w2) =>
      match fully_train_ cl fit_on_val_data kw w2 with
      | (Raise e, w3) => (Raise e, w3)
      | (Return m, w3) =>
          (Return (),
           set_finished true
             (set_files (<[best_model_path w3 := model_weights m]> (files w3))
                (log (ESaveWeights m (best_model_path w3))
                   (set_dirs ({[project_dir w3]} ∪ dirs w3) w3))))
      end
  end.
Proof.
  intros Hfin. unfold search.
  unfold mbind at 1, M_bind at 1, get at 1. rewrite Hfin.
  unfold mbind at 1, M_bind at 1. rewrite insert_early_stopping_run.
  destruct (working_lists callbacks (store w)) as [[cl nc] h1].
  unfold mbind at 1, M_bind at 1.
  destruct (super_search _ _ _) as [[[]|e] w2]; [| done].
  unfold mbind at 1, M_bind at 1.
  destruct (fully_train_ _ _ _ _) as [[m|e] w3]; [| done].
  reflexivity.
Qed.

(** What [super().search] leaves of the tuner besides the store and the
    engine. *)
Lemma super_search_run kw (w : world E) :
  super_search base_search kw w =
  let '(r, h, e) := base_search kw (store w) (engine w) in
  (match r with None => Return () | Some ex => Raise ex end,
   World h e (finished w) (project_dir w) (files w) (dirs w)
     (trace w ++ [EBaseSearch kw (callbacks_seen_by kw (store w))])).
Proof.
  unfold super_search. simpl.
  destruct (base_search kw (store w) (engine w)) as [[[ex|] h] e]; reflexivity.
Qed.

Lemma fit_run m kw (w : world E) :
  fit model_fit m kw w =
  let '(r, h) := model_fit m kw (store w) in
  (r, World h (engine w) (finished w) (project_dir w) (files w) (dirs w)
        (trace w ++ [EFit m kw (callbacks_seen_by kw (store w))])).
Proof.
  unfold fit. simpl. destruct (model_fit m kw (store w)) as [r h]; reflexivity.
Qed.

Lemma search_finished callbacks fit_on_val_data kw (w : world E) :
  finished w = true →
  search_ callbacks fit_on_val_data kw w = (Return (), w).
Proof.
  intros Hfin. unfold search.
  unfold mbind at 1, M_bind at 1, get at 1. by rewrite Hfin.
Qed.

End Runs.

(** ** Which lists the collaborators are given *)

Lemma working_kwargs_refs (kw : kwargs) nc k l :
  no_list_refs kw → <["callbacks" := VList nc]> kw !! k = Some (VList l) → l = nc.
Proof.
  intros Hno. rewrite lookup_insert. case_decide; [by intros [= ->] |].
  intros Hk. by destruct (Hno k l).
Qed.

Lemma final_fit_kwargs_callbacks fit_on_val_data (kw kw' : kwargs) copied :
  final_fit_kwargs fit_on_val_data (<["callbacks" := VList copied]> kw) = Return kw' →
  kw' !! "callbacks" = Some (VList copied).
Proof.
  unfold final_fit_kwargs. destruct fit_on_val_data.
  - destruct (_ !! "x") as [[| |d|]|]; try done.
    destruct (_ !! "validation_data") as [[| |d'|]|]; try done.
    intros [= <-]. rewrite lookup_insert_ne by done. apply lookup_insert_eq.
  - intros [= <-]. apply lookup_insert_eq.
Qed.

Lemma final_fit_kwargs_refs fit_on_val_data (kw kw' : kwargs) copied k l :
  no_list_refs kw →
  final_fit_kwargs fit_on_val_data (<["callbacks" := VList copied]> kw) = Return kw' →
  kw' !! k = Some (VList l) → l = copied.
Proof.
  intros Hno. unfold final_fit_kwargs. destruct fit_on_val_data.
  - destruct (_ !! "x") as [[| |d|]|]; try done.
    destruct (_ !! "validation_data") as [[| |d'|]|]; try done.
    intros [= <-]. rewrite lookup_insert. case_decide; [done |].
    by apply working_kwargs_refs.
  - intros [= <-]. by apply working_kwargs_refs.
Qed.

(** With both datasets present, the final fit gets their concatenation. *)
Lemma final_fit_kwargs_both (kw : kwargs) copied d d' :
  kw !! "x" = Some (VDataset d) →
  kw !! "validation_data" = Some (VDataset d') →
  final_fit_kwargs true (<["callbacks" := VList copied]> kw)
  = Return (<["x" := VDataset (d ++ d')]> (<["callbacks" := VList copied]> kw)).
Proof.
  intros Hx Hv. unfold final_fit_kwargs.
  rewrite !lookup_insert_ne by done. by rewrite Hx, Hv.
Qed.


Lemma callbacks_seen_by_callbacks (kw : kwargs) l h :
  kw !! "callbacks" = Some (VList l) → callbacks_seen_by kw h = list_values h l.
Proof. intros Hk. unfold callbacks_seen_by. by rewrite Hk. Qed.

(** The caller's list, as the second block finds it in a store that kept
    the objects of the first block. *)
Lemma caller_list_kept callbacks h h2 :
  well_formed_callbacks h callbacks →
  heap_extends (default_callbacks callbacks h).2 h2 →
  list_values h2 (default_callbacks callbacks h).1 = caller_callbacks h callbacks ∧
  Forall (λ a, a < length (callback_objs h2))
         (list_items h2 (default_callbacks callbacks h).1).
Proof.
  intros Hwf Hext. pose proof (default_callbacks_values callbacks h Hwf) as Hvals.
  pose proof (default_callbacks_list callbacks h) as Hlist.
  destruct (default_callbacks callbacks h) as [cl hb]. simpl in *.
  destruct Hvals as [Hvals Hvalid]. destruct Hlist as [Hcl _].
  split.
  - by rewrite (heap_extends_list_values _ _ _ Hext Hcl Hvalid).
  - rewrite (heap_extends_list_items _ _ _ Hext Hcl).
    destruct (heap_extends_lengths _ _ Hext) as [Hlc _].
    eapply Forall_impl; [done |]. intros a Ha. simpl in Ha. lia.
Qed.

Section Framed.
Context {E : Type}.
Variable base_search : kwargs → heap → E → option exn * heap * E.
Variable model_fit : model → kwargs → heap → result model * heap.

Hypothesis base_search_frame :
  ∀ e, respects_frame (λ kw h, (base_search kw h e).1.2).
Hypothesis model_fit_frame :
  ∀ m, respects_frame (λ kw h, (model_fit m kw h).2).

(** The base search keeps the store it is started in, working list apart. *)
Lemma base_search_keeps callbacks (kw : kwargs) h cl nc h1 e r h2 e2 :
  no_list_refs kw →
  working_lists callbacks h = (cl, nc, h1) →
  base_search (<["callbacks" := VList nc]> kw) h1 e = (r, h2, e2) →
  heap_extends (default_callbacks callbacks h).2 h2.
Proof.
  intros Hno Hwl Hbase.
  pose proof (working_lists_frame callbacks h) as Hframe.
  destruct (default_callbacks callbacks h) as [cl0 hb]. rewrite Hwl in Hframe.
  destruct Hframe as (-> & Hext & -> & Hfresh). simpl.
  pose proof (respects_frame_extends _ (<["callbacks" := VList (length (list_objs hb))]> kw)
                hb h1 (base_search_frame e) Hext) as Hkeep.
  simpl in Hkeep. rewrite Hbase in Hkeep. apply Hkeep.
  intros k l Hk. apply (working_kwargs_refs _ _ _ _ Hno) in Hk as ->. done.
Qed.

(** The final fit keeps every object that was there before the copy it is
    given was made. *)
Lemma final_fit_keeps hb h2 cl copied h4 (kw kw' : kwargs) fit_on_val_data m r h5 :
  no_list_refs kw →
  heap_extends hb h2 →
  deepcopy cl h2 = (copied, h4) →
  final_fit_kwargs fit_on_val_data (<["callbacks" := VList copied]> kw) = Return kw' →
  model_fit m kw' h4 = (r, h5) →
  heap_extends hb h5.
Proof.
  intros Hno Hext Hcopy Hkw Hfit.
  pose proof (deepcopy_extends cl h2) as Hext2.
  pose proof (deepcopy_address cl h2) as Haddr.
  destruct (heap_extends_lengths _ _ Hext) as [Hlc Hll].
  pose proof (deepcopy_fresh (length (callback_objs hb)) cl h2 Hlc) as Hfresh.
  rewrite Hcopy in Hext2, Haddr, Hfresh. simpl in *.
  pose proof (respects_frame_extends _ kw' hb h4 (model_fit_frame m)) as Hkeep.
  simpl in Hkeep. rewrite Hfit in Hkeep. apply Hkeep.
  - by etrans.
  - intros k l Hk. apply (final_fit_kwargs_refs _ _ _ _ _ _ Hno Hkw) in Hk as ->.
    split; [lia | done].
Qed.

End Framed.

(** The base search sees the caller's callbacks and the injected one. *)
Lemma base_search_sees callbacks (kw : kwargs) h cl nc h1 :
  well_formed_callbacks h callbacks →
  working_lists callbacks h = (cl, nc, h1) →
  callbacks_seen_by (<["callbacks" := VList nc]> kw) h1
  = caller_callbacks h callbacks ++
    (if caller_has_early_stopping h callbacks then [] else [EarlyStopping 10 0]).
Proof.
  intros Hwf Hwl. pose proof (working_lists_values callbacks h Hwf) as Hvals.
  rewrite Hwl in Hvals. rewrite <- Hvals.
  apply callbacks_seen_by_callbacks, lookup_insert_eq.
Qed.

(** The final fit sees a copy of what the caller's list holds. *)
Lemma final_fit_sees fit_on_val_data (kw kw' : kwargs) h2 cl copied h4 :
  Forall (λ a, a < length (callback_objs h2)) (list_items h2 cl) →
  deepcopy cl h2 = (copied, h4) →
  final_fit_kwargs fit_on_val_data (<["callbacks" := VList copied]> kw) = Return kw' →
  callbacks_seen_by kw' h4 = list_values h2 cl.
Proof.
  intros Hvalid Hcopy Hkw.
  rewrite (callbacks_seen_by_callbacks kw' copied)
    by (by eapply final_fit_kwargs_callbacks).
  pose proof (deepcopy_values cl h2 Hvalid) as Hvals. by rewrite Hcopy in Hvals.
Qed.

Lemma working_lists_none_as_empty l h :
  list_objs h !! l = Some [] → working_lists None h = working_lists (Some l) h.
Proof.
  intros Hl. unfold working_lists, default_callbacks, list_items.
  rewrite Hl. reflexivity.
Qed.

(** ** The collaborators of the concrete run respect the frame *)

Lemma touch_all_lookup (items : list nat) (objs : list callback) a :
  a ∉ items →
  foldr (λ b objs, alter Demo.touch b objs) objs items !! a = objs !! a.
Proof.
  induction items as [|b items IH]; intros Hnotin; simpl; [done |].
  apply not_elem_of_cons in Hnotin as [Hne Hnotin].
  rewrite list_lookup_alter_ne by done. by apply IH.
Qed.

Lemma use_callbacks_respects_frame : respects_frame Demo.use_callbacks.
Proof.
  intros kw h. unfold Demo.use_callbacks.
  destruct (kw !! "callbacks") as [[| | |l]|] eqn:Hk; try done.
  split; simpl.
  - intros l' _ Hno. apply list_lookup_alter_ne. intros ->. by destruct (Hno "callbacks").
  - intros a _ Hnotin. apply touch_all_lookup. by eapply Hnotin.
Qed.

Lemma demo_base_search_frame :
  ∀ e, respects_frame (λ kw h, (Demo.base_search kw h e).1.2).
Proof. intros e. exact use_callbacks_respects_frame. Qed.

Lemma demo_model_fit_frame :
  ∀ m, respects_frame (λ kw h, (Demo.model_fit m kw h).2).
Proof. intros m. exact use_callbacks_respects_frame. Qed.

Lemma demo_no_list_refs : no_list_refs Demo.fit_kwargs0.
Proof.
  intros k l. unfold Demo.fit_kwargs0.
  rewrite !lookup_insert. repeat case_decide; try done.
Qed.

Lemma demo_well_formed l :
  l < 3 → well_formed_callbacks Demo.store0 (Some l).
Proof.
  intros Hl. split; [simpl; lia |].
  intros a. destruct l as [|[|[|l]]]; [| | | lia]; unfold list_items; simpl;
    intros Ha; repeat (apply elem_of_cons in Ha as [-> | Ha]; [lia |]);
    by apply elem_of_nil in Ha.
Qed.

(** ** Joining a directory and a file name *)

Lemma append_cons x (a b : string) : String x a +:+ b = String x (a +:+ b).
Proof. reflexivity. Qed.

Lemma append_assoc (a b c : string) : (a +:+ b) +:+ c = a +:+ b +:+ c.
Proof.
  induction a as [|x a IH]; [done |]. rewrite !append_cons. by f_equal.
Qed.

Lemma append_not_empty (a : string) c b : a +:+ String c b ≠ EmptyString.
Proof. by destruct a. Qed.

Lemma ends_with_sep_snoc (a : string) c :
  ends_with_sep (a +:+ String c EmptyString) = bool_decide (c = "/"%char).
Proof.
  induction a as [|x a IH].
  - change (ends_with_sep (String c EmptyString) = bool_decide (c = "/"%char)).
    simpl. destruct (decide (c = "/"%char)) as [Hc|Hc].
    + by rewrite bool_decide_eq_true_2.
    + by rewrite bool_decide_eq_false_2.
  - rewrite append_cons. simpl.
    destruct (a +:+ String c EmptyString) eqn:Ha; [| done].
    by destruct (append_not_empty a c EmptyString).
Qed.

(** A file name that does not start with a separator follows the
    directory: directly when the directory is empty or ends with a
    separator, after one separator otherwise. *)
Lemma os_path_join_empty (b : string) : os_path_join EmptyString b = b.
Proof. unfold os_path_join. by destruct (starts_with_sep b). Qed.

Lemma os_path_join_sep (a b : string) :
  starts_with_sep b = false →
  os_path_join (a +:+ "/") b = a +:+ "/" +:+ b.
Proof.
  intros Hb. unfold os_path_join. rewrite Hb.
  rewrite (ends_with_sep_snoc a "/").
  rewrite (bool_decide_eq_true_2 ("/"%char = "/"%char)) by done.
  rewrite orb_true_r. apply append_assoc.
Qed.

Lemma os_path_join_no_sep (a b : string) c :
  starts_with_sep b = false → c ≠ "/"%char →
  os_path_join (a +:+ String c EmptyString) b = a +:+ String c ("/" +:+ b).
Proof.
  intros Hb Hc. unfold os_path_join. rewrite Hb.
  rewrite ends_with_sep_snoc.
  rewrite (bool_decide_eq_false_2 (c = "/"%char)) by done.
  rewrite bool_decide_eq_false_2 by apply append_not_empty.
  simpl. apply append_assoc.
Qed.
(** ** Reading [project_dir] *)

Lemma made_dirs_unchanged (p : string) (ds : gset string) :
  {[p]} ∪ ds = ds ↔ p ∈ ds.
Proof.
  split.
  - intros <-. apply elem_of_union_l. by apply elem_of_singleton_2.
  - intros Hin. apply subseteq_union_1_L. by apply singleton_subseteq_l.
Qed.

Lemma made_dirs_twice (p : string) (ds : gset string) :
  {[p]} ∪ ({[p]} ∪ ds) = {[p]} ∪ ds.
Proof. by rewrite (assoc_L (∪)), union_idemp_L. Qed.

Lemma self_project_dir_made {E} (w : world E) :
  project_dir w ∈ dirs (self_project_dir w).2.
Proof. simpl. apply elem_of_union_l. by apply elem_of_singleton_2. Qed.

Lemma self_project_dir_unchanged {E} (w : world E) :
  (self_project_dir w).2 = w ↔ project_dir w ∈ dirs w.
Proof.
  rewrite <- made_dirs_unchanged. unfold self_project_dir, set_dirs. simpl.
  split.
  - intros Hw. by apply (f_equal dirs) in Hw.
  - intros ->. by destruct w.
Qed.

(** ** The runs of [search], case by case *)

(** Splits a run of [search] from an unfinished tuner into its seven ways
    to end: the base search raises; the retrain branch finds no trial,
    cannot build the keyword arguments, fits and raises, or fits and
    returns; the other branch finds no model, or finds one. *)
(** Membership of an event in an explicit list of events. *)
Ltac event_in H :=
  repeat (apply elem_of_cons in H as [H | H]; [try discriminate H |]);
  try (by apply elem_of_nil in H).

Ltac search_cases_with Hrun base_search get_best_trials model_fit get_best_models :=
  rewrite search_run in Hrun by done;
  destruct (working_lists _ _) as [[?cl ?nc] ?h1] eqn:?Hwl;
  rewrite super_search_run in Hrun; simpl in Hrun;
  destruct (base_search _ _ _) as [[[?ex|] ?h2] ?e2] eqn:?Hbase;
  [ simplify_eq
  | rewrite fully_train_run in Hrun; simpl in Hrun;
    destruct (negb _ || _) eqn:?Hcond;
    [ destruct (get_best_trials _ _) as [|?t ?ts] eqn:?Htrials;
      [ simplify_eq
      | destruct (deepcopy _ _) as [?copied ?h4] eqn:?Hcopy;
        destruct (final_fit_kwargs _ _) as [?kw'|?ex] eqn:?Hkw;
        [ rewrite fit_run in Hrun; simpl in Hrun;
          destruct (model_fit _ _ _) as [[?m'|?ex] ?h5] eqn:?Hfit;
          simplify_eq
        | simplify_eq ] ]
    | destruct (get_best_models _) as [|?m ?ms] eqn:?Hmodels;
      simplify_eq ] ].

Section Properties.
Context {E : Type}.
Variable base_search : kwargs → heap → E → option exn * heap * E.
Variable get_best_trials : E → nat → list trial.
Variable hypermodel_build : HyperParameters → model.
Variable model_fit : model → kwargs → heap → result model * heap.
Variable get_best_models : E → list model.

Local Abbreviation search_ :=
  (search base_search get_best_trials hypermodel_build model_fit get_best_models).
Local Abbreviation get_best_model_ := (get_best_model get_best_models).
Local Abbreviation call_ :=
  (call base_search get_best_trials hypermodel_build model_fit get_best_models).
Local Abbreviation calls_ :=
  (calls base_search get_best_trials hypermodel_build model_fit get_best_models).

Ltac search_cases Hrun :=
  search_cases_with Hrun base_search get_best_trials model_fit get_best_models.

(** [get_best_model] writes nothing but the trace. *)
Lemma get_best_model_keeps (w : world E) :
  finished (get_best_model_ w).2 = finished w ∧
  project_dir (get_best_model_ w).2 = project_dir w.
Proof.
  unfold get_best_model, super_get_best_models, load_weights, first, get,
    modify, raise, mbind, M_bind, mret, M_ret. simpl.
  destruct (get_best_models (engine w)) as [|m ms]; simpl; [done |].
  destruct (files w !! _); done.
Qed.

Lemma search_keeps_project_dir callbacks fit_on_val_data kw (w w' : world E) r :
  search_ callbacks fit_on_val_data kw w = (r, w') →
  project_dir w' = project_dir w.
Proof.
  intros Hrun. destruct (finished w) eqn:Hfin.
  - rewrite search_finished in Hrun by done. by injection Hrun as <- <-.
  - search_cases Hrun; reflexivity.
Qed.

Lemma call_keeps_project_dir c (w : world E) :
  project_dir (call_ c w) = project_dir w.
Proof.
  destruct c as [callbacks fit_on_val_data kw| | |]; simpl; try done.
  - destruct (search_ callbacks fit_on_val_data kw w) as [r w'] eqn:Hrun.
    by eapply search_keeps_project_dir.
  - apply get_best_model_keeps.
Qed.

Lemma call_keeps_finished c (w : world E) :
  finished w = true → finished (call_ c w) = true.
Proof.
  intros Hfin. destruct c as [callbacks fit_on_val_data kw| | |]; simpl; try done.
  - by rewrite search_finished.
  - destruct (get_best_model_keeps w) as [-> _]. done.
Qed.

Lemma calls_keep_finished cs : ∀ w : world E,
  finished w = true → finished (calls_ cs w) = true.
Proof.
  induction cs as [|c cs IH]; intros w Hfin; simpl; [done |].
  apply IH. by apply call_keeps_finished.
Qed.

Lemma calls_keep_project_dir cs : ∀ w : world E,
  project_dir (calls_ cs w) = project_dir w.
Proof.
  induction cs as [|c cs IH]; intros w; simpl; [done |].
  rewrite IH. apply call_keeps_project_dir.
Qed.

(** C2: the finished flag is false after construction; a completed
    [search] leaves it true, no later method call clears it, and every
    later [search] returns at once and leaves the tuner as it is: no base
    search, no retrain, no weights written. The completed call itself, made
    on an unfinished tuner, runs the base search once, fits at most once and
    writes the weights once. *)
Theorem search_idempotent_after_completion
    callbacks fit_on_val_data kw (w w' : world E)
    (Hrun : search_ callbacks fit_on_val_data kw w = (Return (), w')) :
  (∀ h e dir f, finished (init h (e : E) dir f) = false) ∧
  finished w' = true ∧
  (∀ cs, finished (calls_ cs w') = true) ∧
  (∀ callbacks2 fit_on_val_data2 kw2,
     search_ callbacks2 fit_on_val_data2 kw2 w' = (Return (), w')) ∧
  (finished w = false →
   ∃ kw1 seen rest,
     trace w' = trace w ++ EBaseSearch kw1 seen :: rest ∧
     count_events is_base_search_event rest = 0 ∧
     count_events is_fit_event rest ≤ 1 ∧
     count_events is_save_event rest = 1).
Proof.
  assert (finished w' = true) as Hdone.
  { destruct (finished w) eqn:Hfin.
    - rewrite search_finished in Hrun by done. by simplify_eq.
    - search_cases Hrun; done. }
  split; [done |]. split; [done |].
  split; [intros cs; by apply calls_keep_finished |].
  split; [intros; by apply search_finished |].
  intros Hfin. search_cases Hrun; try done.
  - eexists _, _, _. simpl. rewrite <- !app_assoc. simpl.
    split; [reflexivity |]. unfold count_events. simpl. split; [done |].
    split; [lia | done].
  - eexists _, _, _. simpl. rewrite <- !app_assoc. simpl.
    split; [reflexivity |]. unfold count_events. simpl. split; [done |].
    split; [lia | done].
Qed.

(** C8, as amended: reading [best_model_path] returns the project
    directory joined with "best_model" and does to the tuner exactly what
    reading [project_dir] does, which is to make the project directory when
    it is missing: the read leaves the tuner as it is if and only if the
    directory exists, and a second read returns the same path and changes
    nothing more. No sequence of method calls changes the path. For the project
    directory /tmp/proj it is /tmp/proj/best_model; for the empty directory
    it is best_model; for a directory that ends with a separator it is the
    directory followed by best_model, and for any other directory the
    directory, one separator and best_model. *)
Theorem best_model_path_derived (w : world E) :
  self_best_model_path w
    = (Return (best_model_path w), set_dirs ({[project_dir w]} ∪ dirs w) w) ∧
  (self_best_model_path w).2 = (self_project_dir w).2 ∧
  ((self_best_model_path w).2 = w ↔ project_dir w ∈ dirs w) ∧
  self_best_model_path (self_best_model_path w).2
    = (Return (best_model_path w), (self_best_model_path w).2) ∧
  (∀ cs, best_model_path (calls_ cs w) = best_model_path w) ∧
  (∀ h (e : E) fin f ds tr,
     best_model_path (World h e fin "/tmp/proj" f ds tr) = "/tmp/proj/best_model") ∧
  (project_dir w = EmptyString → best_model_path w = "best_model") ∧
  (∀ d, project_dir w = d +:+ "/" → best_model_path w = d +:+ "/best_model") ∧
  (∀ d c, project_dir w = d +:+ String c EmptyString → c ≠ "/"%char →
     best_model_path w = d +:+ String c "/best_model").
Proof.
  split; [reflexivity |]. split; [reflexivity |]. split; [| split].
  - apply self_project_dir_unchanged.
  - unfold self_best_model_path, self_project_dir, mbind, M_bind, mret, M_ret,
      best_model_path, set_dirs. simpl. by rewrite made_dirs_twice.
  - split; [intros cs; unfold best_model_path; by rewrite calls_keep_project_dir |].
    split; [reflexivity |]. unfold best_model_path.
    split; [intros ->; apply os_path_join_empty |]. split.
    + intros d ->. by rewrite os_path_join_sep.
    + intros d c -> Hc. by rewrite os_path_join_no_sep.
Qed.

(** C5: when [fit_on_val_data] is true and [fit_kwargs] holds the
    training dataset under [x] and a validation dataset, every final fit
    the call makes gets as [x] the training dataset followed by the
    validation dataset, whose size is the sum of the two sizes; the fit is
    made whenever the base search returns and the oracle has a best trial,
    and in every call that completes. *)
Theorem search_final_fit_concatenates
    callbacks kw (w w' : world E) r (train val : dataset)
    (Hfin : finished w = false)
    (Hx : kw !! "x" = Some (VDataset train))
    (Hval : kw !! "validation_data" = Some (VDataset val))
    (Hrun : search_ callbacks true kw w = (r, w')) :
  ∃ kw1 seen rest,
    trace w' = trace w ++ EBaseSearch kw1 seen :: rest ∧
    (∀ m kw' seen', EFit m kw' seen' ∈ rest →
       kw' !! "x" = Some (VDataset (train ++ val)) ∧
       length (train ++ val) = length train + length val) ∧
    (rest ≠ [] → get_best_trials (engine w') 1 ≠ [] →
       ∃ m kw' seen', EFit m kw' seen' ∈ rest) ∧
    (r = Return () → ∃ m kw' seen', EFit m kw' seen' ∈ rest).
Proof.
  search_cases Hrun;
    try (rewrite orb_true_r in Hcond; discriminate Hcond);
    try (rewrite (final_fit_kwargs_both _ _ _ _ Hx Hval) in Hkw; simplify_eq);
    eexists _, _, _; simpl; rewrite <- ?app_assoc; simpl;
    (split; [reflexivity |]).
  - split; [intros m kw' seen' Hin; event_in Hin |]. done.
  - split; [intros m kw' seen' Hin; event_in Hin |]. done.
  - split; [| split].
    + intros m kw' seen' Hin; event_in Hin. simplify_eq.
      split; [apply lookup_insert_eq | apply length_app].
    + intros _ _. eexists _, _, _. do 2 apply list_elem_of_further.
      apply list_elem_of_here.
    + intros _. eexists _, _, _. do 2 apply list_elem_of_further.
      apply list_elem_of_here.
  - split; [| split].
    + intros m kw' seen' Hin; event_in Hin. simplify_eq.
      split; [apply lookup_insert_eq | apply length_app].
    + intros _ _. eexists _, _, _. do 2 apply list_elem_of_further.
      apply list_elem_of_here.
    + done.
Qed.


Section FramedProperties.
Hypothesis base_search_frame :
  ∀ e, respects_frame (λ kw h, (base_search kw h e).1.2).

(** After the base search the caller's list is as it was. *)
Lemma after_base_search callbacks (kw : kwargs) h cl nc h1 e r h2 e2 :
  no_list_refs kw →
  well_formed_callbacks h callbacks →
  working_lists callbacks h = (cl, nc, h1) →
  base_search (<["callbacks" := VList nc]> kw) h1 e = (r, h2, e2) →
  list_values h2 cl = caller_callbacks h callbacks ∧
  Forall (λ a, a < length (callback_objs h2)) (list_items h2 cl).
Proof.
  intros Hno Hwf Hwl Hbase.
  pose proof (base_search_keeps _ base_search_frame _ _ _ _ _ _ _ _ _ _
                Hno Hwl Hbase) as Hext.
  pose proof (working_lists_frame callbacks h) as Hframe.
  pose proof (caller_list_kept callbacks h h2 Hwf Hext) as Hkept.
  destruct (default_callbacks callbacks h) as [cl0 hb]. rewrite Hwl in Hframe.
  by destruct Hframe as (-> & _).
Qed.

(** C1: from an unfinished tuner, [search] first runs the base search;
    when that returns, the retrain branch (best trial from the oracle,
    model built from its hyperparameters, fit) is taken exactly when the
    caller's list holds no early-stopping callback or [fit_on_val_data]
    is true, and the other branch, which takes the first of the base
    procedure's best models, exactly when not. A call that completes
    has asked the oracle, built, fitted and saved in the first case, and
    has saved the first tracked model in the second. *)
Theorem search_retrains_iff
    callbacks fit_on_val_data kw (w w' : world E) r
    (Hno : no_list_refs kw)
    (Hwf : well_formed_callbacks (store w) callbacks)
    (Hfin : finished w = false)
    (Hrun : search_ callbacks fit_on_val_data kw w = (r, w')) :
  let retrain :=
    negb (caller_has_early_stopping (store w) callbacks) || fit_on_val_data in
  ∃ kw1 seen rest,
    trace w' = trace w ++ EBaseSearch kw1 seen :: rest ∧
    (rest ≠ [] →
       existsb is_retrain_event rest = retrain ∧
       existsb is_tracked_model_event rest = negb retrain) ∧
    (r = Return () →
       if retrain then
         ∃ t ts kw' seen' m',
           get_best_trials (engine w') 1 = t :: ts ∧
           rest = [EGetBestTrials 1; EBuild (hyperparameters t);
                   EFit (hypermodel_build (hyperparameters t)) kw' seen';
                   ESaveWeights m' (best_model_path w)]
       else
         ∃ m ms,
           get_best_models (engine w') = m :: ms ∧
           rest = [EGetBestModels; ESaveWeights m (best_model_path w)]).
Proof.
  intros retrain. subst retrain. unfold caller_has_early_stopping.
  search_cases Hrun;
    try (destruct (after_base_search _ _ _ _ _ _ _ _ _ _ Hno Hwf Hwl Hbase)
           as [Hvals _]; rewrite Hvals in Hcond; rewrite Hcond);
    eexists _, _, _; simpl; rewrite <- ?app_assoc; simpl;
    (split; [reflexivity |]); (split; [done |]); try done.
  - intros _. by eexists _, _, _, _, _.
  - intros _. by eexists _, _.
Qed.

(** C4: the base search is given a working list that holds the caller's
    callbacks followed, exactly when none of them is an early-stopping
    callback, by one early-stopping callback with patience 10; the list
    a final fit is given holds the caller's callbacks and nothing else. *)
Theorem search_injects_early_stopping
    callbacks fit_on_val_data kw (w w' : world E) r
    (Hno : no_list_refs kw)
    (Hwf : well_formed_callbacks (store w) callbacks)
    (Hfin : finished w = false)
    (Hrun : search_ callbacks fit_on_val_data kw w = (r, w')) :
  ∃ nc rest,
    trace w' = trace w ++
      EBaseSearch (<["callbacks" := VList nc]> kw)
        (caller_callbacks (store w) callbacks ++
         (if caller_has_early_stopping (store w) callbacks
          then [] else [EarlyStopping 10 0])) :: rest ∧
    (∀ m kw' seen, EFit m kw' seen ∈ rest →
       seen = caller_callbacks (store w) callbacks).
Proof.
  search_cases Hrun;
    pose proof (base_search_sees _ kw _ _ _ _ Hwf Hwl) as Hseen;
    try (destruct (after_base_search _ _ _ _ _ _ _ _ _ _ Hno Hwf Hwl Hbase)
           as [Hvals Hvalid]);
    try (pose proof (final_fit_sees _ _ _ _ _ _ _ Hvalid Hcopy Hkw) as Hfitseen;
         rewrite Hvals in Hfitseen);
    eexists _, _; simpl; rewrite <- ?app_assoc; simpl; rewrite Hseen;
    (split; [reflexivity |]);
    intros m0 kw0 seen0 Hin; event_in Hin; by simplify_eq.
Qed.

(** C9: on every tuner, [search] called with [callbacks=None] runs
    exactly as [search] called with an empty list: same result, same
    tuner afterwards. From an unfinished tuner it gives the
    base search a working list that holds one early-stopping callback
    with patience 10 and nothing else, and once the base search has
    returned it takes the retrain branch, never the other one. *)
Theorem search_none_as_empty
    fit_on_val_data kw (w w' : world E) r
    (Hno : no_list_refs kw)
    (Hfin : finished w = false)
    (Hrun : search_ None fit_on_val_data kw w = (r, w')) :
  (∀ (w0 : world E) l, list_objs (store w0) !! l = Some [] →
        search_ None fit_on_val_data kw w0
        = search_ (Some l) fit_on_val_data kw w0) ∧
  ∃ nc rest,
    trace w' = trace w ++
      EBaseSearch (<["callbacks" := VList nc]> kw) [EarlyStopping 10 0] :: rest ∧
    (rest ≠ [] →
       existsb is_retrain_event rest = true ∧
       existsb is_tracked_model_event rest = false).
Proof.
  split.
  { intros w0 l Hl. destruct (finished w0) eqn:Hfin0.
    - by rewrite !search_finished.
    - rewrite !search_run by done.
      by rewrite (working_lists_none_as_empty l). }
  assert (well_formed_callbacks (store w) None) as Hwf by done.
  search_cases Hrun;
    pose proof (base_search_sees _ kw _ _ _ _ Hwf Hwl) as Hseen;
    try (destruct (after_base_search _ _ _ _ _ _ _ _ _ _ Hno Hwf Hwl Hbase)
           as [Hvals _]; rewrite Hvals in Hcond; simpl in Hcond);
    try discriminate Hcond;
    eexists _, _; simpl; rewrite <- ?app_assoc; simpl; rewrite Hseen;
    (split; [reflexivity |]); done.
Qed.

Hypothesis model_fit_frame :
  ∀ m, respects_frame (λ kw h, (model_fit m kw h).2).

(** C3: [search] leaves every list and every callback that was in the
    store before the call as it was; the caller's list holds the same
    elements, hence as many, and the same callbacks by value. Every list
    the base search or a final fit is given is a list made during the
    call, not the caller's. *)
Theorem search_keeps_caller_callbacks
    callbacks fit_on_val_data kw (w w' : world E) r
    (Hno : no_list_refs kw)
    (Hwf : well_formed_callbacks (store w) callbacks)
    (Hrun : search_ callbacks fit_on_val_data kw w = (r, w')) :
  heap_extends (store w) (store w') ∧
  (∀ l, callbacks = Some l →
        list_objs (store w') !! l = list_objs (store w) !! l ∧
        length (list_items (store w') l) = length (list_items (store w) l) ∧
        list_values (store w') l = list_values (store w) l) ∧
  ∃ evs, trace w' = trace w ++ evs ∧
    ∀ ev kw' k a, ev ∈ evs → event_kwargs ev = Some kw' →
      kw' !! k = Some (VList a) →
      length (list_objs (store w)) ≤ a ∧ callbacks ≠ Some a.
Proof.
  assert (∀ a, length (list_objs (store w)) ≤ a →
            length (list_objs (store w)) ≤ a ∧ callbacks ≠ Some a) as Hnew.
  { intros a Ha. split; [done |]. intros ->. destruct Hwf as [Hl _]. lia. }
  assert (heap_extends (store w) (store w') →
          ∀ l, callbacks = Some l →
            list_objs (store w') !! l = list_objs (store w) !! l ∧
            length (list_items (store w') l) = length (list_items (store w) l) ∧
            list_values (store w') l = list_values (store w) l) as Hlist.
  { intros Hext l ->. destruct Hwf as [Hl Hitems].
    split; [apply prefix_lookup_eq; [apply Hext | done] |].
    split; [by rewrite (heap_extends_list_items _ _ _ Hext Hl) |].
    apply heap_extends_list_values; [done | done |]. by apply Forall_forall. }
  destruct (finished w) eqn:Hfin.
  { rewrite search_finished in Hrun by done. simplify_eq.
    split; [done |]. split; [by apply Hlist |].
    exists []. split; [by rewrite app_nil_r |].
    intros ev kw' k a Hin. by apply elem_of_nil in Hin. }
  pose proof (default_callbacks_extends callbacks (store w)) as Hext0.
  pose proof (working_lists_frame callbacks (store w)) as Hframe.
  search_cases Hrun;
    pose proof (base_search_keeps _ base_search_frame _ _ _ _ _ _ _ _ _ _
                  Hno Hwl Hbase) as Hext2;
    destruct (default_callbacks callbacks (store w)) as [cl0 hb];
    destruct Hframe as (-> & Hext1 & -> & Hfresh); simpl in *;
    destruct (heap_extends_lengths _ _ Hext0) as [_ Hlen0];
    destruct (heap_extends_lengths _ _ Hext2) as [_ Hlen2];
    try (pose proof (deepcopy_extends cl0 h2) as Hext4;
         pose proof (deepcopy_address cl0 h2) as Haddr;
         rewrite Hcopy in Hext4, Haddr; simpl in Hext4, Haddr);
    try (pose proof (final_fit_keeps _ model_fit_frame _ _ _ _ _ _ _ _ _ _ _
                       Hno Hext2 Hcopy Hkw Hfit) as Hext5);
    match goal with
    | |- heap_extends ?a ?b ∧ _ =>
        assert (heap_extends a b) as Hext by (repeat (etrans; [eassumption |]); done)
    end;
    (split; [done |]); (split; [by apply Hlist |]);
    eexists; rewrite <- ?app_assoc; simpl; (split; [reflexivity |]);
    intros ev kw0 k a Hin Hev Hk; event_in Hin; simplify_eq; simpl in Hev;
    simplify_eq; apply Hnew.
  all: try (apply (working_kwargs_refs _ _ _ _ Hno) in Hk as ->; lia).
  all: apply (final_fit_kwargs_refs _ _ _ _ _ _ Hno Hkw) in Hk as ->; lia.
Qed.

End FramedProperties.

End Properties.

(** ** The registry *)

Lemma TUNER_CLASSES_keys name :
  is_Some (TUNER_CLASSES !! name) ↔ name ∈ valid_names.
Proof.
  split.
  - intros [c Hc]. apply elem_of_list_to_map_2 in Hc.
    change valid_names with
      (fst <$> [ ("bayesian", BayesianOptimization); ("random", RandomSearch);
                 ("hyperband", Hyperband); ("greedy", Greedy);
                 ("image_classifier", ImageClassifierTuner);
                 ("image_regressor", Greedy); ("text_classifier", Greedy);
                 ("text_regressor", Greedy);
                 ("structured_data_classifier", Greedy);
                 ("structured_data_regressor", Greedy) ]).
    apply list_elem_of_fmap. by exists (name, c).
  - intros Hin. unfold valid_names in Hin.
    repeat (apply elem_of_cons in Hin as [-> | Hin]; [by eexists |]).
    by apply elem_of_nil in Hin.
Qed.

(** Each of the ten names gets its class. *)
Lemma get_tuner_class_valid_names :
  (λ name, get_tuner_class (PyStr name)) <$> valid_names
  = [ Return BayesianOptimization; Return RandomSearch; Return Hyperband;
      Return Greedy; Return ImageClassifierTuner; Return Greedy; Return Greedy;
      Return Greedy; Return Greedy; Return Greedy ].
Proof. reflexivity. Qed.

(** Any other string is refused with a [ValueError]. *)
Lemma get_tuner_class_unknown_name name :
  name ∉ valid_names →
  get_tuner_class (PyStr name)
  = Raise (ValueError (invalid_tuner_message (PyStr name))).
Proof.
  intros Hnot. unfold get_tuner_class.
  destruct (TUNER_CLASSES !! name) as [c|] eqn:Hc; [| done].
  destruct Hnot. apply TUNER_CLASSES_keys. by eexists.
Qed.

(** C6, at the input "nonexistent": the name is refused with a
    [ValueError], and of the ten names the registry accepts the message
    lists four; the six other names are accepted and not listed. *)
Theorem get_tuner_class_message_omits_valid_names :
  get_tuner_class (PyStr "nonexistent")
    = Raise (ValueError (invalid_tuner_message (PyStr "nonexistent"))) ∧
  filter (λ n, message_lists (invalid_tuner_message (PyStr "nonexistent")) n = true)
         valid_names
    = ["bayesian"; "random"; "hyperband"; "greedy"] ∧
  Forall (λ n, is_Some (TUNER_CLASSES !! n) ∧
               message_lists (invalid_tuner_message (PyStr "nonexistent")) n = false)
         ["image_classifier"; "image_regressor"; "text_classifier";
          "text_regressor"; "structured_data_classifier";
          "structured_data_regressor"].
Proof.
  split; [reflexivity |]. split; [reflexivity |].
  repeat constructor; by eexists.
Qed.

(** C10: an argument that is not a string is refused with the
    [ValueError], a tuner class of the registry included; a class comes
    back only for a string that is a key of the registry, and it is the
    class the registry has for that key. *)
Theorem get_tuner_class_requires_string_key (tuner : pyvalue) :
  (isinstance_str tuner = false →
   get_tuner_class tuner = Raise (ValueError (invalid_tuner_message tuner))) ∧
  (∀ c, get_tuner_class (PyClass c)
        = Raise (ValueError (invalid_tuner_message (PyClass c)))) ∧
  (∀ c, get_tuner_class tuner = Return c →
        ∃ name, tuner = PyStr name ∧ TUNER_CLASSES !! name = Some c ∧
                name ∈ valid_names).
Proof.
  split; [by destruct tuner |]. split; [done |].
  intros c. destruct tuner as [| | |name|]; try done.
  unfold get_tuner_class. destruct (TUNER_CLASSES !! name) as [c'|] eqn:Hc; [| done].
  intros [= ->]. exists name. split; [done |]. split; [done |].
  apply TUNER_CLASSES_keys. by eexists.
Qed.

Lemma get_tuner_class_requires_string_key_witness :
  isinstance_str (PyClass Greedy) = false ∧
  get_tuner_class (PyClass Greedy)
    = Raise (ValueError (invalid_tuner_message (PyClass Greedy))) ∧
  get_tuner_class (PyStr "hyperband") = Return Hyperband ∧
  ∃ name, PyStr "hyperband" = PyStr name ∧ TUNER_CLASSES !! name = Some Hyperband ∧
          name ∈ valid_names.
Proof.
  split; [reflexivity |].
  split; [apply (get_tuner_class_requires_string_key (PyClass Greedy)); reflexivity |].
  split; [reflexivity |].
  apply (get_tuner_class_requires_string_key (PyStr "hyperband")). reflexivity.
Defined.

(** ** The properties on the concrete run *)

(** The four combinations of (early stopping supplied, [fit_on_val_data]):
    which runs take the retrain branch. *)
Lemma retrain_table :
  (λ '(callbacks, fit_on_val_data),
     existsb is_retrain_event
       (trace (Demo.search callbacks fit_on_val_data Demo.fit_kwargs0 Demo.tuner0).2))
  <$> [(Some 0, false); (Some 0, true); (Some 1, false); (Some 1, true)]
  = [true; true; false; true].
Proof. vm_compute. reflexivity. Qed.

Lemma search_retrains_iff_witness :
  no_list_refs Demo.fit_kwargs0 ∧
  well_formed_callbacks (store Demo.tuner0) (Some 1) ∧
  finished Demo.tuner0 = false ∧
  Demo.run_es.1 = Return () ∧
  ∃ kw1 seen rest,
    trace Demo.run_es.2 = trace Demo.tuner0 ++ EBaseSearch kw1 seen :: rest ∧
    (rest ≠ [] →
       existsb is_retrain_event rest = false ∧
       existsb is_tracked_model_event rest = true) ∧
    (Demo.run_es.1 = Return () →
       ∃ m ms,
         Demo.get_best_models (engine Demo.run_es.2) = m :: ms ∧
         rest = [EGetBestModels; ESaveWeights m (best_model_path Demo.tuner0)]).
Proof.
  split; [exact demo_no_list_refs |].
  split; [apply demo_well_formed; lia |].
  split; [reflexivity |].
  split; [vm_compute; reflexivity |].
  exact (search_retrains_iff Demo.base_search Demo.get_best_trials
           Demo.hypermodel_build Demo.model_fit Demo.get_best_models
           demo_base_search_frame (Some 1) false Demo.fit_kwargs0 Demo.tuner0
           Demo.run_es.2 Demo.run_es.1 demo_no_list_refs
           (demo_well_formed 1 ltac:(lia)) eq_refl
           (surjective_pairing Demo.run_es)).
Defined.

Lemma search_idempotent_after_completion_witness :
  Demo.run_plain = (Return (), Demo.run_plain.2) ∧
  finished Demo.run_plain.2 = true ∧
  Demo.search None true Demo.fit_kwargs_no_val Demo.run_plain.2
    = (Return (), Demo.run_plain.2) ∧
  count_events is_base_search_event (trace Demo.run_plain.2) = 1 ∧
  count_events is_fit_event (trace Demo.run_plain.2) = 1 ∧
  count_events is_save_event (trace Demo.run_plain.2) = 1.
Proof.
  assert (Demo.run_plain = (Return (), Demo.run_plain.2)) as Hrun
    by (vm_compute; reflexivity).
  split; [exact Hrun |].
  destruct (search_idempotent_after_completion Demo.base_search
              Demo.get_best_trials Demo.hypermodel_build Demo.model_fit
              Demo.get_best_models (Some 0) false Demo.fit_kwargs0 Demo.tuner0
              Demo.run_plain.2 Hrun) as (_ & Hdone & _ & Hagain & _).
  split; [exact Hdone |]. split; [apply Hagain |].
  repeat split; vm_compute; reflexivity.
Defined.

Lemma search_keeps_caller_callbacks_witness :
  no_list_refs Demo.fit_kwargs0 ∧
  well_formed_callbacks (store Demo.tuner0) (Some 1) ∧
  list_objs (store Demo.run_val.2) !! 1 = Some [0; 1] ∧
  list_values (store Demo.run_val.2) 1 = [Callback "logger" 0; EarlyStopping 3 0] ∧
  heap_extends (store Demo.tuner0) (store Demo.run_val.2).
Proof.
  split; [exact demo_no_list_refs |].
  split; [apply demo_well_formed; lia |].
  destruct (search_keeps_caller_callbacks Demo.base_search Demo.get_best_trials
              Demo.hypermodel_build Demo.model_fit Demo.get_best_models
              demo_base_search_frame demo_model_fit_frame
              (Some 1) true Demo.fit_kwargs0 Demo.tuner0
              Demo.run_val.2 Demo.run_val.1 demo_no_list_refs
              (demo_well_formed 1 ltac:(lia))
              (surjective_pairing Demo.run_val)) as (Hext & Hlist & _).
  destruct (Hlist 1 eq_refl) as (Hitems & _ & Hvalues).
  split; [exact Hitems |]. split; [exact Hvalues |]. exact Hext.
Defined.

Lemma search_injects_early_stopping_witness :
  no_list_refs Demo.fit_kwargs0 ∧
  well_formed_callbacks (store Demo.tuner0) (Some 0) ∧
  finished Demo.tuner0 = false ∧
  ∃ nc rest,
    trace Demo.run_plain.2 = trace Demo.tuner0 ++
      EBaseSearch (<["callbacks" := VList nc]> Demo.fit_kwargs0)
        [Callback "logger" 0; EarlyStopping 10 0] :: rest ∧
    (∀ m kw' seen, EFit m kw' seen ∈ rest → seen = [Callback "logger" 0]).
Proof.
  split; [exact demo_no_list_refs |].
  split; [apply demo_well_formed; lia |].
  split; [reflexivity |].
  exact (search_injects_early_stopping Demo.base_search Demo.get_best_trials
           Demo.hypermodel_build Demo.model_fit Demo.get_best_models
           demo_base_search_frame (Some 0) false Demo.fit_kwargs0 Demo.tuner0
           Demo.run_plain.2 Demo.run_plain.1 demo_no_list_refs
           (demo_well_formed 0 ltac:(lia)) eq_refl
           (surjective_pairing Demo.run_plain)).
Defined.

Lemma search_final_fit_concatenates_witness :
  finished Demo.tuner0 = false ∧
  Demo.fit_kwargs0 !! "x" = Some (VDataset Demo.train) ∧
  Demo.fit_kwargs0 !! "validation_data" = Some (VDataset Demo.val) ∧
  length Demo.train = 100 ∧ length Demo.val = 20 ∧
  Demo.run_val.1 = Return () ∧
  ∃ m kw' seen d,
    EFit m kw' seen ∈ trace Demo.run_val.2 ∧
    kw' !! "x" = Some (VDataset d) ∧ length d = 120.
Proof.
  split; [reflexivity |]. split; [reflexivity |]. split; [reflexivity |].
  split; [reflexivity |]. split; [reflexivity |].
  assert (Demo.run_val.1 = Return ()) as Hret by (vm_compute; reflexivity).
  split; [exact Hret |].
  destruct (search_final_fit_concatenates Demo.base_search Demo.get_best_trials
              Demo.hypermodel_build Demo.model_fit Demo.get_best_models
              (Some 1) Demo.fit_kwargs0 Demo.tuner0 Demo.run_val.2 Demo.run_val.1
              Demo.train Demo.val eq_refl eq_refl eq_refl
              (surjective_pairing Demo.run_val))
    as (kw1 & seen1 & rest & Htrace & Hfits & _ & Hcompleted).
  destruct (Hcompleted Hret) as (m & kw' & seen & Hin).
  destruct (Hfits _ _ _ Hin) as [Hx Hlen].
  exists m, kw', seen, (Demo.train ++ Demo.val).
  split; [| split; [exact Hx | reflexivity]].
  rewrite Htrace. apply elem_of_app. right. by apply list_elem_of_further.
Defined.



Lemma best_model_path_derived_witness :
  (self_best_model_path Demo.tuner0).1 = Return "/tmp/proj/best_model" ∧
  (self_best_model_path Demo.tuner0).2 ≠ Demo.tuner0 ∧
  self_best_model_path (self_best_model_path Demo.tuner0).2
  = (Return "/tmp/proj/best_model", (self_best_model_path Demo.tuner0).2) ∧
  best_model_path (init Demo.store0 0 "/tmp/proj/" ∅) = "/tmp/proj/best_model" ∧
  best_model_path (init Demo.store0 0 "proj" ∅) = "proj/best_model" ∧
  best_model_path (init Demo.store0 0 EmptyString ∅) = "best_model".
Proof.
  destruct (best_model_path_derived Demo.base_search Demo.get_best_trials
              Demo.hypermodel_build Demo.model_fit Demo.get_best_models Demo.tuner0)
    as (Hread & _ & Hsame & Htwice & _).
  split; [by rewrite Hread |].
  split; [intros Hw; apply Hsame in Hw; exact (not_elem_of_empty _ Hw) |].
  split; [exact Htwice |].
  split.
  { destruct (best_model_path_derived Demo.base_search Demo.get_best_trials
                Demo.hypermodel_build Demo.model_fit Demo.get_best_models
                (init Demo.store0 0 "/tmp/proj/" ∅))
      as (_ & _ & _ & _ & _ & _ & _ & Hsep & _).
    exact (Hsep "/tmp/proj" eq_refl). }
  split.
  { destruct (best_model_path_derived Demo.base_search Demo.get_best_trials
                Demo.hypermodel_build Demo.model_fit Demo.get_best_models
                (init Demo.store0 0 "proj" ∅))
      as (_ & _ & _ & _ & _ & _ & _ & _ & Hno_sep).
    apply (Hno_sep "pro" "j"%char eq_refl). discriminate. }
  destruct (best_model_path_derived Demo.base_search Demo.get_best_trials
              Demo.hypermodel_build Demo.model_fit Demo.get_best_models
              (init Demo.store0 0 EmptyString ∅))
    as (_ & _ & _ & _ & _ & _ & Hempty & _).
  exact (Hempty eq_refl).
Defined.

(** C8, as the spec has it, fails: the read of [best_model_path] is not
    free of effects. On a tuner whose project directory /tmp/proj does not
    exist, the read returns /tmp/proj/best_model and makes the directory,
    so that the tuner is not as it was. *)
Lemma best_model_path_read_makes_directory :
  (self_best_model_path Demo.tuner0).1 = Return "/tmp/proj/best_model" ∧
  ("/tmp/proj" ∉ dirs Demo.tuner0) ∧
  "/tmp/proj" ∈ dirs (self_best_model_path Demo.tuner0).2 ∧
  (self_best_model_path Demo.tuner0).2 ≠ Demo.tuner0.
Proof.
  split; [reflexivity |].
  split; [apply not_elem_of_empty |].
  split; [exact (self_project_dir_made Demo.tuner0) |].
  intros Hw. apply (self_project_dir_unchanged Demo.tuner0) in Hw.
  exact (not_elem_of_empty _ Hw).
Qed.

Lemma search_none_as_empty_witness :
  no_list_refs Demo.fit_kwargs0 ∧
  finished Demo.tuner0 = false ∧
  list_objs (store Demo.tuner0) !! 2 = Some [] ∧
  Demo.search (Some 2) false Demo.fit_kwargs0 Demo.tuner0 = Demo.run_none ∧
  ∃ nc rest,
    trace Demo.run_none.2 = trace Demo.tuner0 ++
      EBaseSearch (<["callbacks" := VList nc]> Demo.fit_kwargs0)
        [EarlyStopping 10 0] :: rest ∧
    (rest ≠ [] →
       existsb is_retrain_event rest = true ∧
       existsb is_tracked_model_event rest = false).
Proof.
  split; [exact demo_no_list_refs |].
  split; [reflexivity |]. split; [reflexivity |].
  destruct (search_none_as_empty Demo.base_search Demo.get_best_trials
              Demo.hypermodel_build Demo.model_fit Demo.get_best_models
              demo_base_search_frame false Demo.fit_kwargs0 Demo.tuner0
              Demo.run_none.2 Demo.run_none.1 demo_no_list_refs eq_refl
              (surjective_pairing Demo.run_none)) as [Hsame Hrest].
  split; [symmetry; by apply Hsame |]. exact Hrest.
Defined.

(** ** Failures, the weights file and [get_best_model] *)

Lemma existsb_filter_length {A} (f : A → bool) (l : list A) :
  length (filter (λ x, f x = true) l) = 0 ↔ existsb f l = false.
Proof.
  induction l as [|x l IH]; simpl; [done |].
  rewrite filter_cons. destruct (f x) eqn:Hx; simpl.
  - split; [lia | done].
  - exact IH.
Qed.

Lemma final_fit_kwargs_forwards fit_on_val_data (kw kw' : kwargs) copied :
  final_fit_kwargs fit_on_val_data (<["callbacks" := VList copied]> kw) = Return kw' →
  (∀ k, k ≠ "callbacks" → k ≠ "x" → kw' !! k = kw !! k) ∧
  (fit_on_val_data = false → kw' !! "x" = kw !! "x") ∧
  (fit_on_val_data = true →
   ∃ d d', kw !! "x" = Some (VDataset d) ∧
           kw !! "validation_data" = Some (VDataset d') ∧
           kw' !! "x" = Some (VDataset (d ++ d'))).
Proof.
  unfold final_fit_kwargs. destruct fit_on_val_data.
  - rewrite !lookup_insert_ne by done.
    destruct (kw !! "x") as [[| |d|]|] eqn:Hx; try done.
    destruct (kw !! "validation_data") as [[| |d'|]|] eqn:Hv; try done.
    intros [= <-]. split; [| split; [done |]].
    + intros k Hk Hkx. by rewrite !lookup_insert_ne.
    + intros _. exists d, d'. split; [done |]. split; [done |]. apply lookup_insert_eq.
  - intros [= <-]. split; [| split; [| done]].
    + intros k Hk Hkx. by rewrite lookup_insert_ne.
    + intros _. by rewrite lookup_insert_ne.
Qed.

Lemma final_fit_kwargs_no_dataset (kw : kwargs) copied :
  (∀ d, kw !! "x" ≠ Some (VDataset d)) →
  final_fit_kwargs true (<["callbacks" := VList copied]> kw)
  = Raise (match kw !! "x" with
           | None => KeyError "x"
           | Some _ => AttributeError "concatenate"
           end).
Proof.
  intros Hx. unfold final_fit_kwargs. rewrite !lookup_insert_ne by done.
  destruct (kw !! "x") as [[| |d|]|] eqn:Hkx; try done. by destruct (Hx d).
Qed.

Section MoreProperties.
Context {E : Type}.
Variable base_search : kwargs → heap → E → option exn * heap * E.
Variable get_best_trials : E → nat → list trial.
Variable hypermodel_build : HyperParameters → model.
Variable model_fit : model → kwargs → heap → result model * heap.
Variable get_best_models : E → list model.

Local Abbreviation search_ :=
  (search base_search get_best_trials hypermodel_build model_fit get_best_models).
Local Abbreviation get_best_model_ := (get_best_model get_best_models).

Ltac search_cases Hrun :=
  search_cases_with Hrun base_search get_best_trials model_fit get_best_models.

(** [get_best_model], step by step. *)
Lemma get_best_model_run (w : world E) :
  get_best_model_ w =
  match get_best_models (engine w) with
  | [] =>
      (Raise IndexError,
       World (store w) (engine w) (finished w) (project_dir w) (files w)
         (dirs w) (trace w ++ [EGetBestModels]))
  | m :: _ =>
      (match files w !! best_model_path w with
       | Some wts => Return (Model (model_hp m) wts)
       | None => Raise (NotFoundError (best_model_path w))
       end,
       World (store w) (engine w) (finished w) (project_dir w) (files w)
         ({[project_dir w]} ∪ dirs w)
         (trace w ++ [EGetBestModels; ELoadWeights (best_model_path w)]))
  end.
Proof.
  unfold get_best_model, super_get_best_models, load_weights, first, get,
    modify, raise, mbind, M_bind, mret, M_ret. simpl.
  destruct (get_best_models (engine w)) as [|m ms]; simpl; [done |].
  unfold best_model_path. simpl.
  destruct (files w !! _); unfold log; simpl; rewrite <- app_assoc; reflexivity.
Qed.

(** What a completed run leaves: the events before the save are those of
    the retrain branch with a fit that returned the saved model, or those of
    the other branch, which found the saved model first among the best
    models. *)
Lemma search_completed callbacks fit_on_val_data kw (w w' : world E) :
  finished w = false →
  search_ callbacks fit_on_val_data kw w = (Return (), w') →
  ∃ m evs,
    trace w' = trace w ++ evs ++ [ESaveWeights m (best_model_path w)] ∧
    files w' = <[best_model_path w := model_weights m]> (files w) ∧
    project_dir w' = project_dir w ∧
    ((∃ kw1 seen1 hp m0 kw' seen h,
        evs = [EBaseSearch kw1 seen1; EGetBestTrials 1; EBuild hp; EFit m0 kw' seen] ∧
        (model_fit m0 kw' h).1 = Return m) ∨
     (∃ kw1 seen1 ms,
        evs = [EBaseSearch kw1 seen1; EGetBestModels] ∧
        get_best_models (engine w') = m :: ms)).
Proof.
  intros Hfin Hrun. search_cases Hrun; unfold best_model_path; simpl.
  - eexists m', [_; _; _; _]. rewrite <- !app_assoc. simpl.
    split; [reflexivity |]. split; [done |]. split; [done |].
    left. eexists _, _, _, _, _, _, h4. split; [reflexivity |]. by rewrite Hfit.
  - eexists m, [_; _]. rewrite <- !app_assoc. simpl.
    split; [reflexivity |]. split; [done |]. split; [done |].
    right. by eexists _, _, _.
Qed.

(** X1: a call of [search] that raises was made on an unfinished tuner and
    leaves it unfinished: the flag is set by a call that returns, never by
    one that fails. So a failure is not taken for a completed search: a
    later call of [search] that returns, whatever its arguments, has saved
    weights at [best_model_path] as its last step and left the tuner
    finished. *)
Theorem search_failure_leaves_tuner_unfinished
    callbacks fit_on_val_data kw (w w' : world E) e
    (Hrun : search_ callbacks fit_on_val_data kw w = (Raise e, w')) :
  finished w = false ∧ finished w' = false ∧
  (∀ callbacks2 fit_on_val_data2 kw2 w2,
     search_ callbacks2 fit_on_val_data2 kw2 w' = (Return (), w2) →
     finished w2 = true ∧
     ∃ m evs, trace w2 = trace w' ++ evs ++ [ESaveWeights m (best_model_path w')]).
Proof.
  destruct (finished w) eqn:Hfin.
  { rewrite search_finished in Hrun by done. discriminate Hrun. }
  split; [done |].
  assert (finished w' = false) as Hfin'.
  { search_cases Hrun; done. }
  split; [done |].
  intros callbacks2 fit_on_val_data2 kw2 w2 Hrun2. split.
  - clear Hrun. search_cases Hrun2; done.
  - destruct (search_completed _ _ _ _ _ Hfin' Hrun2) as (m & evs & Htrace & _).
    by exists m, evs.
Qed.


(** X3: after a call of [search] that completed on an unfinished tuner,
    [get_best_model] finds the weights file: it raises [IndexError] when the
    base procedure has no best model, and otherwise returns the first best
    model with the saved weights loaded into it. When the search saved the
    first best model itself, that is the model returned. *)
Theorem get_best_model_after_search
    callbacks fit_on_val_data kw (w w' : world E)
    (Hfin : finished w = false)
    (Hrun : search_ callbacks fit_on_val_data kw w = (Return (), w')) :
  ∃ saved evs,
    trace w' = trace w ++ evs ++ [ESaveWeights saved (best_model_path w)] ∧
    files w' !! best_model_path w' = Some (model_weights saved) ∧
    (get_best_model_ w').1
    = match get_best_models (engine w') with
      | [] => Raise IndexError
      | m :: _ => Return (Model (model_hp m) (model_weights saved))
      end ∧
    (EGetBestModels ∈ evs → (get_best_model_ w').1 = Return saved).
Proof.
  destruct (search_completed _ _ _ _ _ Hfin Hrun)
    as (saved & evs & Htrace & Hfiles & Hdir & Hevs).
  assert (best_model_path w' = best_model_path w) as Hpath
    by (unfold best_model_path; by rewrite Hdir).
  assert (files w' !! best_model_path w' = Some (model_weights saved)) as Hfile
    by (by rewrite Hpath, Hfiles, lookup_insert_eq).
  exists saved, evs. split; [done |]. split; [done |].
  rewrite get_best_model_run.
  split.
  - destruct (get_best_models (engine w')) as [|m ms]; simpl; [done |].
    by rewrite Hfile.
  - destruct Hevs as [(kw1 & seen1 & hp & m0 & kw' & seen & h & -> & Hfit)
                     |(kw1 & seen1 & ms & -> & Hmodels)].
    + intros Hin. by event_in Hin.
    + intros _. rewrite Hmodels. simpl. rewrite Hfile. by destruct saved.
Qed.

(** X4: with no weights file at [best_model_path], [get_best_model]
    returns no model. When the base procedure has no best model it raises
    [IndexError] right after asking for the models, without asking for the
    weights. Otherwise it reads [best_model_path], so that the project
    directory is made, asks for the weights at that path and raises the
    not-found error of the path. *)
Theorem get_best_model_without_weights (w : world E)
    (Hnone : files w !! best_model_path w = None) :
  match get_best_models (engine w) with
  | [] =>
      (get_best_model_ w).1 = Raise IndexError ∧
      trace (get_best_model_ w).2 = trace w ++ [EGetBestModels]
  | _ :: _ =>
      (get_best_model_ w).1 = Raise (NotFoundError (best_model_path w)) ∧
      project_dir w ∈ dirs (get_best_model_ w).2 ∧
      trace (get_best_model_ w).2
      = trace w ++ [EGetBestModels; ELoadWeights (best_model_path w)]
  end.
Proof.
  rewrite get_best_model_run.
  destruct (get_best_models (engine w)) as [|m ms]; simpl; [done |].
  rewrite Hnone. split; [done |]. split; [| done].
  apply elem_of_union_l. by apply elem_of_singleton_2.
Qed.

(** X5: the base search gets every keyword argument of the caller as
    given, [x] included, and the working list as [callbacks]. A final fit
    gets every keyword argument other than [callbacks] and [x] as given, the
    validation data included; it gets [x] as given when [fit_on_val_data] is
    false, and when it is true the caller gave two datasets and [x] is the
    first followed by the second. *)
Theorem search_forwards_fit_kwargs
    callbacks fit_on_val_data kw (w w' : world E) r
    (Hfin : finished w = false)
    (Hrun : search_ callbacks fit_on_val_data kw w = (r, w')) :
  ∃ kw1 seen rest,
    trace w' = trace w ++ EBaseSearch kw1 seen :: rest ∧
    (∀ k, k ≠ "callbacks" → kw1 !! k = kw !! k) ∧
    (∃ nc, kw1 !! "callbacks" = Some (VList nc)) ∧
    (∀ m kw' seen', EFit m kw' seen' ∈ rest →
       (∀ k, k ≠ "callbacks" → k ≠ "x" → kw' !! k = kw !! k) ∧
       (fit_on_val_data = false → kw' !! "x" = kw !! "x") ∧
       (fit_on_val_data = true →
        ∃ d d', kw !! "x" = Some (VDataset d) ∧
                kw !! "validation_data" = Some (VDataset d') ∧
                kw' !! "x" = Some (VDataset (d ++ d')))).
Proof.
  search_cases Hrun;
    try pose proof (final_fit_kwargs_forwards _ _ _ _ Hkw) as Hforward;
    eexists _, _, _; simpl; rewrite <- ?app_assoc; simpl;
    (split; [reflexivity |]);
    (split; [intros k Hk; by rewrite lookup_insert_ne |]);
    (split; [eexists; apply lookup_insert_eq |]);
    intros m0 kw0 seen0 Hin; event_in Hin; by simplify_eq.
Qed.

(** X6: when the base search has returned and the retrain branch finds
    that the oracle has no trial, or the other branch that the base procedure
    has no best model, the call raises [IndexError] and does nothing more: no
    model is built, fitted or saved. *)
Theorem search_index_error_when_nothing_found
    callbacks fit_on_val_data kw (w w' : world E) r
    (Hfin : finished w = false)
    (Hrun : search_ callbacks fit_on_val_data kw w = (r, w')) :
  ∃ kw1 seen rest,
    trace w' = trace w ++ EBaseSearch kw1 seen :: rest ∧
    (EGetBestTrials 1 ∈ rest → get_best_trials (engine w') 1 = [] →
       r = Raise IndexError ∧ rest = [EGetBestTrials 1]) ∧
    (EGetBestModels ∈ rest → get_best_models (engine w') = [] →
       r = Raise IndexError ∧ rest = [EGetBestModels]).
Proof.
  search_cases Hrun; eexists _, _, _; simpl; rewrite <- ?app_assoc; simpl;
    (split; [reflexivity |]);
    (split; [intros Hin Hempty | intros Hin Hempty]);
    try (by event_in Hin); simpl in *; try congruence; done.
Qed.

(** X7: with [fit_on_val_data] true and no dataset under [x], the call
    never completes and builds, fits and saves nothing. Once the base search
    has returned and the oracle has given a best trial, it raises the
    [KeyError] of [x] when [x] is missing, whether or not validation data is
    there, and the [AttributeError] of [concatenate] when [x] is not a
    dataset. *)
Theorem search_concatenation_needs_dataset
    callbacks kw (w w' : world E) r
    (Hfin : finished w = false)
    (Hx : ∀ d, kw !! "x" ≠ Some (VDataset d))
    (Hrun : search_ callbacks true kw w = (r, w')) :
  ∃ kw1 seen rest,
    trace w' = trace w ++ EBaseSearch kw1 seen :: rest ∧
    (∃ e, r = Raise e) ∧
    (∀ ev, ev ∈ rest → ev = EGetBestTrials 1) ∧
    (rest ≠ [] → get_best_trials (engine w') 1 ≠ [] →
       r = Raise (match kw !! "x" with
                  | None => KeyError "x"
                  | Some _ => AttributeError "concatenate"
                  end)).
Proof.
  search_cases Hrun;
    try (rewrite orb_true_r in Hcond; discriminate Hcond);
    try (rewrite (final_fit_kwargs_no_dataset _ _ Hx) in Hkw; simplify_eq);
    eexists _, _, _; simpl; rewrite <- ?app_assoc; simpl;
    (split; [reflexivity |]); (split; [by eexists |]);
    (split; [intros ev Hin; by event_in Hin |]); done.
Qed.

(** X8: the list the base search is given always holds an early-stopping
    callback: it holds as many as the caller's list, and one when the
    caller's list holds none; it is as long as the caller's list, or longer
    by one. *)
Theorem search_base_search_is_early_stopped
    callbacks fit_on_val_data kw (w w' : world E) r
    (Hwf : well_formed_callbacks (store w) callbacks)
    (Hfin : finished w = false)
    (Hrun : search_ callbacks fit_on_val_data kw w = (r, w')) :
  ∃ kw1 seen rest,
    trace w' = trace w ++ EBaseSearch kw1 seen :: rest ∧
    existsb isinstance_EarlyStopping seen = true ∧
    length (filter (λ cb, isinstance_EarlyStopping cb = true) seen)
    = max 1 (length (filter (λ cb, isinstance_EarlyStopping cb = true)
                       (caller_callbacks (store w) callbacks))) ∧
    length seen
    = length (caller_callbacks (store w) callbacks) +
      (if caller_has_early_stopping (store w) callbacks then 0 else 1).
Proof.
  assert (∀ seen,
    seen = caller_callbacks (store w) callbacks ++
           (if caller_has_early_stopping (store w) callbacks
            then [] else [EarlyStopping 10 0]) →
    existsb isinstance_EarlyStopping seen = true ∧
    length (filter (λ cb, isinstance_EarlyStopping cb = true) seen)
    = max 1 (length (filter (λ cb, isinstance_EarlyStopping cb = true)
                       (caller_callbacks (store w) callbacks))) ∧
    length seen
    = length (caller_callbacks (store w) callbacks) +
      (if caller_has_early_stopping (store w) callbacks then 0 else 1)) as Hseen.
  { intros seen ->. unfold caller_has_early_stopping.
    pose proof (existsb_filter_length isinstance_EarlyStopping
                  (caller_callbacks (store w) callbacks)) as Hcount.
    rewrite existsb_app, filter_app, !length_app.
    destruct (existsb isinstance_EarlyStopping _) eqn:Hes; simpl.
    - split; [done |]. split; [| done].
      destruct (length (filter _ (caller_callbacks (store w) callbacks)));
        [by destruct Hcount as [Hcount _]; specialize (Hcount eq_refl) | lia].
    - split; [done |]. split; [| done].
      destruct Hcount as [_ Hcount]. rewrite (Hcount eq_refl). done. }
  search_cases Hrun;
    pose proof (base_search_sees _ kw _ _ _ _ Hwf Hwl) as Hsees;
    eexists _, _, _; simpl; rewrite <- ?app_assoc; simpl;
    (split; [reflexivity |]); by apply Hseen.
Qed.

End MoreProperties.

(** ** The classes and their constructors *)

(** X9: every class the registry can return is a subclass of [AutoTuner]
    and takes [search], [get_best_model], [best_model_path] and
    [_populate_initial_space] from [AutoTuner]: none overrides them. The
    constructor is [AutoTuner]'s for the three strategy classes, and the
    class's own for [Greedy] and [ImageClassifierTuner], which is a subclass
    of [Greedy]. [AutoTuner] is a subclass of none of them. *)
Theorem registered_classes_use_AutoTuner_methods (c : tuner_class) :
  issubclass (Registered c) AutoTuner = true ∧
  issubclass AutoTuner (Registered c) = false ∧
  Forall (λ name, resolve (Registered c) name = Some AutoTuner)
    ["search"; "get_best_model"; "best_model_path"; "_populate_initial_space"] ∧
  resolve (Registered c) "__init__"
  = Some (if bool_decide (c ∈ [Greedy; ImageClassifierTuner])
          then Registered c else AutoTuner) ∧
  issubclass (Registered ImageClassifierTuner) (Registered Greedy) = true ∧
  (issubclass (Registered c) (Registered Greedy) = true ↔
   c ∈ [Greedy; ImageClassifierTuner]).
Proof.
  split; [by destruct c |]. split; [by destruct c |].
  split; [destruct c; by repeat constructor |].
  split; [by destruct c |]. split; [reflexivity |].
  split.
  - destruct c; intros Hsub; try discriminate Hsub;
      [apply list_elem_of_here | apply list_elem_of_further, list_elem_of_here].
  - intros Hin.
    repeat (apply elem_of_cons in Hin as [-> | Hin]; [reflexivity |]).
    by apply elem_of_nil in Hin.
Qed.

Lemma greedy_oracle_kwargs_keys kw k :
  is_Some (greedy_oracle_kwargs kw !! k) ↔ k ∈ greedy_params.
Proof.
  unfold greedy_oracle_kwargs, greedy_params. split.
  - intros Hsome. rewrite !lookup_insert in Hsome.
    repeat case_decide; subst; try (by repeat constructor).
    rewrite lookup_empty in Hsome. by destruct Hsome.
  - intros Hin.
    repeat (apply elem_of_cons in Hin as [-> | Hin];
            [rewrite !lookup_insert; repeat case_decide; try done; by eexists |]).
    by apply elem_of_nil in Hin.
Qed.

Section ConstructorProperties.
Context {E : Type}.
Variable GreedyOracle : gmap string arg → result arg.
Variable engine_init : tuner_class → gmap string arg → result (E * string).
Variable INITIAL_HPS : gmap string arg.

Local Abbreviation construct_ := (construct GreedyOracle engine_init INITIAL_HPS).
Local Abbreviation Greedy__init___ := (Greedy__init__ GreedyOracle engine_init).

(** [Greedy.__init__], step by step. *)
Lemma Greedy__init__run c h f kw evs :
  Greedy__init___ c h f kw evs =
  match kw !! "hypermodel", kw !! "objective", kw !! "max_trials" with
  | Some _, Some _, Some _ =>
      let evs1 := evs ++ [ENewGreedyOracle (greedy_oracle_kwargs kw)] in
      match GreedyOracle (greedy_oracle_kwargs kw) with
      | Raise e => (Raise e, evs1)
      | Return oracle =>
          match kw !! "oracle" with
          | Some _ =>
              (Raise (TypeError "got multiple values for keyword argument oracle"),
               evs1)
          | None =>
              let ekw := greedy_engine_kwargs kw oracle in
              let evs2 := evs1 ++ [EEngineInit c ekw] in
              match engine_init c ekw with
              | Return (e, dir) =>
                  (Return (Tuner c (Some (default ANone (kw !! "seed")))
                             (init h e dir f)), evs2)
              | Raise ex => (Raise ex, evs2)
              end
          end
      end
  | None, _, _ => (Raise (TypeError "missing required argument hypermodel"), evs)
  | Some _, None, _ => (Raise (TypeError "missing required argument objective"), evs)
  | Some _, Some _, None =>
      (Raise (TypeError "missing required argument max_trials"), evs)
  end.
Proof.
  unfold Greedy__init__, required, new_GreedyOracle, with_keyword,
    AutoTuner__init__, super__init__, ctor_raise, greedy_oracle_kwargs,
    greedy_engine_kwargs, mbind, ctor_bind, mret, ctor_ret.
  destruct (kw !! "hypermodel") as [hm|]; [| done].
  destruct (kw !! "objective") as [obj|]; [| done].
  destruct (kw !! "max_trials") as [mt|]; [| done]. simpl.
  destruct (GreedyOracle _) as [oracle|ex]; [| done].
  rewrite !lookup_delete_ne by done.
  destruct (kw !! "oracle") as [v|]; [done |].
  rewrite lookup_insert_ne by done. rewrite lookup_delete_eq.
  destruct (engine_init c _) as [[e dir]|ex]; done.
Qed.

Lemma construct_Greedy h f kw evs :
  construct_ Greedy h f kw evs = Greedy__init___ Greedy h f kw evs.
Proof. reflexivity. Qed.

Lemma construct_ImageClassifierTuner h f kw evs :
  construct_ ImageClassifierTuner h f kw evs =
  match INITIAL_HPS !! "image_classifier" with
  | None => (Raise (KeyError "image_classifier"), evs)
  | Some v =>
      match kw !! "initial_hps" with
      | Some _ =>
          (Raise (TypeError "got multiple values for keyword argument initial_hps"),
           evs)
      | None =>
          Greedy__init___ ImageClassifierTuner h f (<["initial_hps" := v]> kw) evs
      end
  end.
Proof.
  unfold construct. simpl.
  unfold ImageClassifierTuner__init__, with_keyword, ctor_raise,
    mbind, ctor_bind, mret, ctor_ret.
  destruct (INITIAL_HPS !! "image_classifier") as [v|]; [| done].
  by destruct (kw !! "initial_hps").
Qed.

(** What a construction of the Greedy family that returns has done. *)
Lemma greedy_family_returns c h f kw t evs :
  c = Greedy ∨ c = ImageClassifierTuner →
  construct_ c h f kw [] = (Return t, evs) →
  ∃ kw' oracle e dir,
    (c = Greedy ∧ kw' = kw ∨
     c = ImageClassifierTuner ∧ kw !! "initial_hps" = None ∧
       ∃ v, INITIAL_HPS !! "image_classifier" = Some v ∧
            kw' = <["initial_hps" := v]> kw) ∧
    is_Some (kw' !! "hypermodel") ∧ is_Some (kw' !! "objective") ∧
    is_Some (kw' !! "max_trials") ∧ kw' !! "oracle" = None ∧
    GreedyOracle (greedy_oracle_kwargs kw') = Return oracle ∧
    engine_init c (greedy_engine_kwargs kw' oracle) = Return (e, dir) ∧
    evs = [ENewGreedyOracle (greedy_oracle_kwargs kw');
           EEngineInit c (greedy_engine_kwargs kw' oracle)] ∧
    t = Tuner c (Some (default ANone (kw' !! "seed"))) (init h e dir f).
Proof.
  assert (∀ kw', Greedy__init___ c h f kw' [] = (Return t, evs) →
    ∃ oracle e dir,
      is_Some (kw' !! "hypermodel") ∧ is_Some (kw' !! "objective") ∧
      is_Some (kw' !! "max_trials") ∧ kw' !! "oracle" = None ∧
      GreedyOracle (greedy_oracle_kwargs kw') = Return oracle ∧
      engine_init c (greedy_engine_kwargs kw' oracle) = Return (e, dir) ∧
      evs = [ENewGreedyOracle (greedy_oracle_kwargs kw');
             EEngineInit c (greedy_engine_kwargs kw' oracle)] ∧
      t = Tuner c (Some (default ANone (kw' !! "seed"))) (init h e dir f)) as Hg.
  { intros kw'. rewrite Greedy__init__run.
    destruct (kw' !! "hypermodel") as [hm|]; [| done].
    destruct (kw' !! "objective") as [obj|]; [| by destruct (kw' !! "max_trials")].
    destruct (kw' !! "max_trials") as [mt|]; [| done]. simpl.
    destruct (GreedyOracle _) as [oracle|ex] eqn:Horacle; [| done].
    destruct (kw' !! "oracle") as [v|]; [done |].
    destruct (engine_init c _) as [[e dir]|ex] eqn:Hengine; [| done].
    intros [= <- <-]. by eexists _, _, _. }
  intros [-> | ->] Hrun.
  - rewrite construct_Greedy in Hrun.
    destruct (Hg _ Hrun) as (oracle & e & dir & Hrest).
    exists kw, oracle, e, dir. split; [by left | done].
  - rewrite construct_ImageClassifierTuner in Hrun.
    destruct (INITIAL_HPS !! "image_classifier") as [v|] eqn:Hv; [| done].
    destruct (kw !! "initial_hps") eqn:Hi; [done |].
    destruct (Hg _ Hrun) as (oracle & e & dir & Hrest).
    exists (<["initial_hps" := v]> kw), oracle, e, dir.
    split; [| done]. right. split; [done |]. split; [done |]. by exists v.
Qed.

(** X10: a construction of [Greedy] or [ImageClassifierTuner] that returns
    has built one oracle, before the engine, with exactly the eight named
    keyword arguments: the caller's hypermodel, objective and [max_trials];
    the caller's [seed], [hyperparameters], [tune_new_entries] and
    [allow_new_entries], or [None], [None], [True] and [True] when not
    given; [initial_hps] is the caller's or [None] for [Greedy], and the
    entry [image_classifier] of [INITIAL_HPS] for [ImageClassifierTuner]. The
    tuner's attribute [seed] is the seed the oracle got. *)
Theorem greedy_constructs_oracle c h f kw t evs
    (Hc : c = Greedy ∨ c = ImageClassifierTuner)
    (Hrun : construct_ c h f kw [] = (Return t, evs)) :
  ∃ okw ekw oracle,
    evs = [ENewGreedyOracle okw; EEngineInit c ekw] ∧
    GreedyOracle okw = Return oracle ∧
    (∀ k, is_Some (okw !! k) ↔ k ∈ greedy_params) ∧
    okw !! "hypermodel" = kw !! "hypermodel" ∧
    okw !! "objective" = kw !! "objective" ∧
    okw !! "max_trials" = kw !! "max_trials" ∧
    okw !! "seed" = Some (default ANone (kw !! "seed")) ∧
    seed t = okw !! "seed" ∧
    okw !! "hyperparameters" = Some (default ANone (kw !! "hyperparameters")) ∧
    okw !! "tune_new_entries" = Some (default (ABool true) (kw !! "tune_new_entries")) ∧
    okw !! "allow_new_entries" = Some (default (ABool true) (kw !! "allow_new_entries")) ∧
    (c = Greedy → okw !! "initial_hps" = Some (default ANone (kw !! "initial_hps"))) ∧
    (c = ImageClassifierTuner →
       okw !! "initial_hps" = INITIAL_HPS !! "image_classifier").
Proof.
  destruct (greedy_family_returns _ _ _ _ _ _ Hc Hrun)
    as (kw' & oracle & e & dir & Hkw' & [hm Hhm] & [obj Hobj] & [mt Hmt] & _ &
        Horacle & _ & -> & ->).
  exists (greedy_oracle_kwargs kw'), (greedy_engine_kwargs kw' oracle), oracle.
  split; [done |]. split; [done |].
  assert (∀ k, k ≠ "initial_hps" → kw' !! k = kw !! k) as Hsame.
  { intros k Hk. destruct Hkw' as [[_ ->] | (_ & _ & v & _ & ->)]; [done |].
    by rewrite lookup_insert_ne. }
  split; [apply greedy_oracle_kwargs_keys |].
  unfold greedy_oracle_kwargs. simpl.
  rewrite <- !Hsame by done.
  repeat (rewrite lookup_insert_ne by done).
  rewrite Hhm, Hobj, Hmt.
  repeat split; try (by simplify_map_eq).
  - intros ->. destruct Hkw' as [[_ ->] | (? & _)]; [| done]. by simplify_map_eq.
  - intros ->. destruct Hkw' as [[? _] | (_ & _ & v & Hv & ->)]; [done |].
    rewrite Hv. by simplify_map_eq.
Qed.

(** X11: a construction of [Greedy] or [ImageClassifierTuner] that returns
    has started the engine once, last, with the caller's hypermodel, the
    oracle it built, none of the seven arguments meant for the oracle, and
    every other keyword argument of the caller as given; the caller gave no
    [oracle]. The new tuner is unfinished and has the state and directory
    the engine started with. *)
Theorem greedy_engine_keywords c h f kw t evs
    (Hc : c = Greedy ∨ c = ImageClassifierTuner)
    (Hrun : construct_ c h f kw [] = (Return t, evs)) :
  ∃ okw ekw oracle,
    evs = [ENewGreedyOracle okw; EEngineInit c ekw] ∧
    GreedyOracle okw = Return oracle ∧
    kw !! "oracle" = None ∧
    ekw !! "oracle" = Some oracle ∧
    ekw !! "hypermodel" = kw !! "hypermodel" ∧
    (∀ k, k ∈ oracle_only_params → ekw !! k = None) ∧
    (∀ k, k ∉ greedy_params → k ≠ "oracle" → ekw !! k = kw !! k) ∧
    engine_init c ekw
      = Return (engine (tuner_state t), project_dir (tuner_state t)) ∧
    tuner_class_of t = c ∧
    finished (tuner_state t) = false ∧
    store (tuner_state t) = h ∧ files (tuner_state t) = f ∧
    trace (tuner_state t) = [].
Proof.
  destruct (greedy_family_returns _ _ _ _ _ _ Hc Hrun)
    as (kw' & oracle & e & dir & Hkw' & [hm Hhm] & _ & _ & Hnone &
        Horacle & Hengine & -> & ->).
  exists (greedy_oracle_kwargs kw'), (greedy_engine_kwargs kw' oracle), oracle.
  split; [done |]. split; [done |].
  assert (∀ k, k ≠ "initial_hps" → kw' !! k = kw !! k) as Hsame.
  { intros k Hk. destruct Hkw' as [[_ ->] | (_ & _ & v & _ & ->)]; [done |].
    by rewrite lookup_insert_ne. }
  split; [by rewrite <- Hsame |].
  unfold greedy_engine_kwargs in *.
  split; [by simplify_map_eq |].
  split; [rewrite lookup_insert_eq, Hhm; simpl; by rewrite <- Hhm, Hsame |].
  split.
  { intros k Hk.
    assert (k ∈ greedy_params) as Hin.
    { unfold oracle_only_params in Hk. unfold greedy_params.
      apply list_elem_of_further. exact Hk. }
    assert (k ≠ "hypermodel" ∧ k ≠ "oracle") as [Hk1 Hk2].
    { unfold oracle_only_params in Hk.
      repeat (apply elem_of_cons in Hk as [-> | Hk]; [done |]).
      by apply elem_of_nil in Hk. }
    rewrite !lookup_insert_ne by done. by apply lookup_foldr_delete. }
  split.
  { intros k Hk Hko.
    assert (k ≠ "hypermodel" ∧ k ≠ "initial_hps") as [Hk1 Hk2].
    { split; intros ->; apply Hk; unfold greedy_params;
        repeat (first [apply list_elem_of_here | apply list_elem_of_further]). }
    rewrite !lookup_insert_ne by done.
    rewrite lookup_foldr_delete_not_elem_of by done. by apply Hsame. }
  done.
Qed.

(** X12: [Greedy] and [ImageClassifierTuner] cannot be given an oracle:
    with the keyword argument [oracle] the construction never returns and
    never starts the engine; when the arguments are otherwise accepted and
    the oracle of the class has been built, it raises a [TypeError]. *)
Theorem greedy_rejects_oracle_keyword c h f kw v r evs
    (Hc : c = Greedy ∨ c = ImageClassifierTuner)
    (Horacle : kw !! "oracle" = Some v)
    (Hrun : construct_ c h f kw [] = (r, evs)) :
  (∃ e, r = Raise e) ∧
  (∀ ev, ev ∈ evs → ∃ okw, ev = ENewGreedyOracle okw) ∧
  (∀ okw oracle, evs = [ENewGreedyOracle okw] →
     GreedyOracle okw = Return oracle →
     ∃ msg, r = Raise (TypeError msg)).
Proof.
  assert (∀ kw', kw' !! "oracle" = Some v →
    Greedy__init___ c h f kw' [] = (r, evs) →
    (∃ e, r = Raise e) ∧
    (∀ ev, ev ∈ evs → ∃ okw, ev = ENewGreedyOracle okw) ∧
    (∀ okw oracle, evs = [ENewGreedyOracle okw] →
       GreedyOracle okw = Return oracle →
       ∃ msg, r = Raise (TypeError msg)))
    as Hg.
  { intros kw' Hkw'. rewrite Greedy__init__run, Hkw'.
    destruct (kw' !! "hypermodel") as [hm|];
      [| intros [= <- <-]; split; [by eexists |]; split;
         [intros ev Hin; by apply elem_of_nil in Hin | done]].
    destruct (kw' !! "objective") as [obj|];
      [| destruct (kw' !! "max_trials"); intros [= <- <-]; (split; [by eexists |]);
         (split; [intros ev Hin; by apply elem_of_nil in Hin | done])].
    destruct (kw' !! "max_trials") as [mt|];
      [| intros [= <- <-]; split; [by eexists |]; split;
         [intros ev Hin; by apply elem_of_nil in Hin | done]].
    simpl. destruct (GreedyOracle _) as [oracle|ex] eqn:Ho; intros [= <- <-].
    - split; [by eexists |]. split.
      + intros ev Hin. event_in Hin. by eexists.
      + intros; by eexists.
    - split; [by eexists |]. split.
      + intros ev Hin. event_in Hin. by eexists.
      + intros okw oracle [= <-] Hret. congruence. }
  destruct Hc as [-> | ->].
  - rewrite construct_Greedy in Hrun. by apply (Hg kw).
  - rewrite construct_ImageClassifierTuner in Hrun.
    destruct (INITIAL_HPS !! "image_classifier") as [iv|];
      [| simplify_eq; split; [by eexists |]; split;
         [intros ev Hin; by apply elem_of_nil in Hin | done]].
    destruct (kw !! "initial_hps");
      [simplify_eq; split; [by eexists |]; split;
         [intros ev Hin; by apply elem_of_nil in Hin | done] |].
    apply (Hg (<["initial_hps" := iv]> kw)); [| done].
    by rewrite lookup_insert_ne.
Qed.

(** X13: [ImageClassifierTuner] cannot be given [initial_hps]: with that
    keyword argument the construction raises before any oracle is built or
    engine started, the [KeyError] of [image_classifier] when [INITIAL_HPS]
    has no such entry and a [TypeError] otherwise. *)
Theorem image_classifier_rejects_initial_hps h f kw v r evs
    (Hinit : kw !! "initial_hps" = Some v)
    (Hrun : construct_ ImageClassifierTuner h f kw [] = (r, evs)) :
  evs = [] ∧
  match INITIAL_HPS !! "image_classifier" with
  | None => r = Raise (KeyError "image_classifier")
  | Some _ => ∃ msg, r = Raise (TypeError msg)
  end.
Proof.
  rewrite construct_ImageClassifierTuner, Hinit in Hrun.
  destruct (INITIAL_HPS !! "image_classifier"); simplify_eq;
    (split; [done |]); [by eexists | done].
Qed.

(** X14: [Greedy] called without one of [hypermodel], [objective] and
    [max_trials] raises a [TypeError] before any oracle is built or engine
    started; so does [ImageClassifierTuner], when [INITIAL_HPS] has the entry
    [image_classifier]. *)
Theorem greedy_requires_arguments c h f kw name r evs
    (Hc : c = Greedy ∨ c = ImageClassifierTuner ∧
                        is_Some (INITIAL_HPS !! "image_classifier"))
    (Hname : name ∈ ["hypermodel"; "objective"; "max_trials"])
    (Hmissing : kw !! name = None)
    (Hrun : construct_ c h f kw [] = (r, evs)) :
  evs = [] ∧ ∃ msg, r = Raise (TypeError msg).
Proof.
  assert (∀ kw', kw' !! name = None →
    Greedy__init___ c h f kw' [] = (r, evs) →
    evs = [] ∧ ∃ msg, r = Raise (TypeError msg)) as Hg.
  { intros kw' Hkw'. rewrite Greedy__init__run.
    repeat (apply elem_of_cons in Hname as [-> | Hname]);
      [| | | by apply elem_of_nil in Hname]; rewrite Hkw'.
    - intros [= <- <-]. split; [done | by eexists].
    - destruct (kw' !! "hypermodel"); intros [= <- <-]; (split; [done | by eexists]).
    - destruct (kw' !! "hypermodel"); [destruct (kw' !! "objective") |];
        intros [= <- <-]; (split; [done | by eexists]). }
  destruct Hc as [-> | [-> [iv Hiv]]].
  - rewrite construct_Greedy in Hrun. by apply (Hg kw).
  - rewrite construct_ImageClassifierTuner, Hiv in Hrun.
    destruct (kw !! "initial_hps");
      [simplify_eq; split; [done | by eexists] |].
    apply (Hg (<["initial_hps" := iv]> kw)); [| done].
    rewrite lookup_insert_ne; [done |].
    intros <-. repeat (apply elem_of_cons in Hname as [Hname | Hname];
                       [discriminate Hname |]). by apply elem_of_nil in Hname.
Qed.

End ConstructorProperties.

(** ** The further properties on the concrete runs *)

Lemma search_failure_leaves_tuner_unfinished_witness :
  Demo.run_no_val = (Raise (KeyError "validation_data"), Demo.run_no_val.2) ∧
  finished Demo.run_no_val.2 = false ∧
  (Demo.search (Some 1) false Demo.fit_kwargs0 Demo.run_no_val.2).1 = Return () ∧
  finished (Demo.search (Some 1) false Demo.fit_kwargs0 Demo.run_no_val.2).2 = true.
Proof.
  assert (Demo.run_no_val = (Raise (KeyError "validation_data"), Demo.run_no_val.2))
    as Hrun by (vm_compute; reflexivity).
  split; [exact Hrun |].
  destruct (search_failure_leaves_tuner_unfinished Demo.base_search
              Demo.get_best_trials Demo.hypermodel_build Demo.model_fit
              Demo.get_best_models None true Demo.fit_kwargs_no_val Demo.tuner0
              Demo.run_no_val.2 (KeyError "validation_data") Hrun)
    as (_ & Hfin & Hagain).
  split; [exact Hfin |]. split; [vm_compute; reflexivity |].
  apply (Hagain (Some 1) false Demo.fit_kwargs0). vm_compute. reflexivity.
Defined.


Lemma get_best_model_after_search_witness :
  finished Demo.tuner0 = false ∧
  Demo.run_es = (Return (), Demo.run_es.2) ∧
  (get_best_model Demo.get_best_models Demo.run_es.2).1
  = Return (Model [("units", 32%Z)] 7) ∧
  ∃ saved evs,
    trace Demo.run_es.2
    = trace Demo.tuner0 ++ evs ++ [ESaveWeights saved (best_model_path Demo.tuner0)] ∧
    (EGetBestModels ∈ evs →
     (get_best_model Demo.get_best_models Demo.run_es.2).1 = Return saved).
Proof.
  assert (Demo.run_es = (Return (), Demo.run_es.2)) as Hrun
    by (vm_compute; reflexivity).
  split; [reflexivity |]. split; [exact Hrun |].
  split; [vm_compute; reflexivity |].
  destruct (get_best_model_after_search Demo.base_search Demo.get_best_trials
              Demo.hypermodel_build Demo.model_fit Demo.get_best_models
              (Some 1) false Demo.fit_kwargs0 Demo.tuner0 Demo.run_es.2
              eq_refl Hrun) as (saved & evs & Htrace & _ & _ & Hsame).
  by exists saved, evs.
Defined.

Lemma get_best_model_without_weights_witness :
  files Demo.tuner0 !! best_model_path Demo.tuner0 = None ∧
  (get_best_model Demo.get_best_models Demo.tuner0).1 = Raise IndexError ∧
  (get_best_model Demo.get_best_models (set_engine 3 Demo.tuner0)).1
  = Raise (NotFoundError "/tmp/proj/best_model") ∧
  "/tmp/proj" ∈ dirs (get_best_model Demo.get_best_models (set_engine 3 Demo.tuner0)).2.
Proof.
  split; [reflexivity |].
  destruct (get_best_model_without_weights Demo.get_best_models Demo.tuner0 eq_refl)
    as (Hraise & _).
  split; [exact Hraise |].
  destruct (get_best_model_without_weights Demo.get_best_models
              (set_engine 3 Demo.tuner0) eq_refl) as (Hraise3 & Hdir & _).
  split; [exact Hraise3 | exact Hdir].
Defined.

Lemma search_forwards_fit_kwargs_witness :
  finished Demo.tuner0 = false ∧
  ∃ kw1 seen rest,
    trace Demo.run_val.2 = trace Demo.tuner0 ++ EBaseSearch kw1 seen :: rest ∧
    kw1 !! "x" = Some (VDataset Demo.train) ∧
    ∀ m kw' seen', EFit m kw' seen' ∈ rest →
      kw' !! "validation_data" = Some (VDataset Demo.val) ∧
      kw' !! "epochs" = Some (VInt 5).
Proof.
  split; [reflexivity |].
  destruct (search_forwards_fit_kwargs Demo.base_search Demo.get_best_trials
              Demo.hypermodel_build Demo.model_fit Demo.get_best_models
              (Some 1) true Demo.fit_kwargs0 Demo.tuner0 Demo.run_val.2
              Demo.run_val.1 eq_refl (surjective_pairing Demo.run_val))
    as (kw1 & seen & rest & Htrace & Hbase & _ & Hfit).
  exists kw1, seen, rest. split; [exact Htrace |].
  split; [by rewrite Hbase |].
  intros m kw' seen' Hin. destruct (Hfit _ _ _ Hin) as (Hother & _).
  split; by rewrite Hother.
Defined.

Lemma search_index_error_when_nothing_found_witness :
  finished Demo.tuner0 = false ∧
  DemoNew.run_no_trials.1 = Raise IndexError ∧
  ∃ kw1 seen rest,
    trace DemoNew.run_no_trials.2
    = trace Demo.tuner0 ++ EBaseSearch kw1 seen :: rest ∧
    (EGetBestTrials 1 ∈ rest → rest = [EGetBestTrials 1]).
Proof.
  split; [reflexivity |]. split; [vm_compute; reflexivity |].
  destruct (search_index_error_when_nothing_found Demo.base_search (λ _ _, [])
              Demo.hypermodel_build Demo.model_fit Demo.get_best_models
              (Some 0) false Demo.fit_kwargs0 Demo.tuner0 DemoNew.run_no_trials.2
              DemoNew.run_no_trials.1 eq_refl
              (surjective_pairing DemoNew.run_no_trials))
    as (kw1 & seen & rest & Htrace & Htrials & _).
  exists kw1, seen, rest. split; [exact Htrace |].
  intros Hin. by destruct (Htrials Hin eq_refl).
Defined.

Lemma search_concatenation_needs_dataset_witness :
  finished Demo.tuner0 = false ∧
  (∀ d, DemoNew.fit_kwargs_no_x !! "x" ≠ Some (VDataset d)) ∧
  DemoNew.run_no_x.1 = Raise (KeyError "x") ∧
  ∃ kw1 seen rest,
    trace DemoNew.run_no_x.2 = trace Demo.tuner0 ++ EBaseSearch kw1 seen :: rest ∧
    ∀ ev, ev ∈ rest → ev = EGetBestTrials 1.
Proof.
  assert (∀ d, DemoNew.fit_kwargs_no_x !! "x" ≠ Some (VDataset d)) as Hx by done.
  split; [reflexivity |]. split; [exact Hx |].
  split; [vm_compute; reflexivity |].
  destruct (search_concatenation_needs_dataset Demo.base_search
              Demo.get_best_trials Demo.hypermodel_build Demo.model_fit
              Demo.get_best_models None DemoNew.fit_kwargs_no_x Demo.tuner0
              DemoNew.run_no_x.2 DemoNew.run_no_x.1 eq_refl Hx
              (surjective_pairing DemoNew.run_no_x))
    as (kw1 & seen & rest & Htrace & _ & Hrest & _).
  by exists kw1, seen, rest.
Defined.

Lemma search_base_search_is_early_stopped_witness :
  well_formed_callbacks (store Demo.tuner0) (Some 1) ∧
  finished Demo.tuner0 = false ∧
  ∃ kw1 seen rest,
    trace Demo.run_es.2 = trace Demo.tuner0 ++ EBaseSearch kw1 seen :: rest ∧
    existsb isinstance_EarlyStopping seen = true ∧
    length (filter (λ cb, isinstance_EarlyStopping cb = true) seen) = 1 ∧
    length seen = 2.
Proof.
  split; [apply demo_well_formed; lia |]. split; [reflexivity |].
  exact (search_base_search_is_early_stopped Demo.base_search
           Demo.get_best_trials Demo.hypermodel_build Demo.model_fit
           Demo.get_best_models (Some 1) false Demo.fit_kwargs0 Demo.tuner0
           Demo.run_es.2 Demo.run_es.1 (demo_well_formed 1 ltac:(lia)) eq_refl
           (surjective_pairing Demo.run_es)).
Defined.

Lemma greedy_constructs_oracle_witness :
  DemoNew.new_image.1 = Return (Tuner ImageClassifierTuner (Some ANone)
                                  (init Demo.store0 0 "/tmp/proj" ∅)) ∧
  ∃ okw ekw oracle,
    DemoNew.new_image.2 = [ENewGreedyOracle okw; EEngineInit ImageClassifierTuner ekw] ∧
    DemoNew.GreedyOracle okw = Return oracle ∧
    okw !! "max_trials" = Some (AInt 5) ∧
    okw !! "initial_hps" = Some (AObj 3) ∧
    okw !! "tune_new_entries" = Some (ABool true).
Proof.
  assert (DemoNew.new_image =
          (Return (Tuner ImageClassifierTuner (Some ANone)
                     (init Demo.store0 0 "/tmp/proj" ∅)), DemoNew.new_image.2))
    as Hrun by (vm_compute; reflexivity).
  split; [by rewrite Hrun |].
  destruct (greedy_constructs_oracle DemoNew.GreedyOracle DemoNew.engine_init
              DemoNew.INITIAL_HPS ImageClassifierTuner Demo.store0 ∅ DemoNew.kw0
              _ DemoNew.new_image.2 (or_intror eq_refl) Hrun)
    as (okw & ekw & oracle & Hevs & Horacle & _ & _ & _ & Hmt & _ & _ & _ &
        Htune & _ & _ & Hinit).
  exists okw, ekw, oracle. split; [exact Hevs |]. split; [exact Horacle |].
  split; [by rewrite Hmt |]. split; [by rewrite (Hinit eq_refl) |].
  by rewrite Htune.
Defined.

Lemma greedy_engine_keywords_witness :
  DemoNew.new_greedy.1 = Return (Tuner Greedy (Some ANone)
                                   (init Demo.store0 0 "/tmp/proj" ∅)) ∧
  ∃ okw ekw oracle,
    DemoNew.new_greedy.2 = [ENewGreedyOracle okw; EEngineInit Greedy ekw] ∧
    ekw !! "oracle" = Some oracle ∧
    ekw !! "max_trials" = None ∧
    ekw !! "directory" = Some (AStr "/tmp/proj").
Proof.
  assert (DemoNew.new_greedy =
          (Return (Tuner Greedy (Some ANone)
                     (init Demo.store0 0 "/tmp/proj" ∅)), DemoNew.new_greedy.2))
    as Hrun by (vm_compute; reflexivity).
  split; [by rewrite Hrun |].
  destruct (greedy_engine_keywords DemoNew.GreedyOracle DemoNew.engine_init
              DemoNew.INITIAL_HPS Greedy Demo.store0 ∅ DemoNew.kw0
              _ DemoNew.new_greedy.2 (or_introl eq_refl) Hrun)
    as (okw & ekw & oracle & Hevs & _ & _ & Horacle & _ & Honly & Hother & _).
  exists okw, ekw, oracle. split; [exact Hevs |]. split; [exact Horacle |].
  split.
  - apply Honly. unfold oracle_only_params.
    apply list_elem_of_further, list_elem_of_here.
  - rewrite Hother; [reflexivity | | done].
    unfold greedy_params. intros Hin.
    repeat (apply elem_of_cons in Hin as [Hin | Hin]; [discriminate Hin |]).
    by apply elem_of_nil in Hin.
Defined.

Lemma greedy_rejects_oracle_keyword_witness :
  (<["oracle" := AObj 9]> DemoNew.kw0 : gmap string arg) !! "oracle" = Some (AObj 9) ∧
  (∃ msg, DemoNew.new_with_oracle.1 = Raise (TypeError msg)) ∧
  ∀ ev, ev ∈ DemoNew.new_with_oracle.2 → ∃ okw, ev = ENewGreedyOracle okw.
Proof.
  split; [apply lookup_insert_eq |].
  destruct (greedy_rejects_oracle_keyword DemoNew.GreedyOracle DemoNew.engine_init
              DemoNew.INITIAL_HPS Greedy Demo.store0 ∅
              (<["oracle" := AObj 9]> DemoNew.kw0) (AObj 9)
              DemoNew.new_with_oracle.1 DemoNew.new_with_oracle.2
              (or_introl eq_refl) (lookup_insert_eq _ _ _)
              (surjective_pairing DemoNew.new_with_oracle))
    as (_ & Hevs & Htype).
  split; [| exact Hevs].
  eapply Htype; [vm_compute; reflexivity | reflexivity].
Defined.

Lemma image_classifier_rejects_initial_hps_witness :
  (<["initial_hps" := AObj 9]> DemoNew.kw0 : gmap string arg) !! "initial_hps"
  = Some (AObj 9) ∧
  DemoNew.new_with_initial_hps.2 = [] ∧
  ∃ msg, DemoNew.new_with_initial_hps.1 = Raise (TypeError msg).
Proof.
  split; [apply lookup_insert_eq |].
  exact (image_classifier_rejects_initial_hps DemoNew.GreedyOracle
           DemoNew.engine_init DemoNew.INITIAL_HPS Demo.store0 ∅
           (<["initial_hps" := AObj 9]> DemoNew.kw0) (AObj 9)
           DemoNew.new_with_initial_hps.1 DemoNew.new_with_initial_hps.2
           (lookup_insert_eq _ _ _)
           (surjective_pairing DemoNew.new_with_initial_hps)).
Defined.

Lemma greedy_requires_arguments_witness :
  "objective" ∈ ["hypermodel"; "objective"; "max_trials"] ∧
  (delete "objective" DemoNew.kw0 : gmap string arg) !! "objective" = None ∧
  DemoNew.new_without_objective.2 = [] ∧
  ∃ msg, DemoNew.new_without_objective.1 = Raise (TypeError msg).
Proof.
  assert ("objective" ∈ ["hypermodel"; "objective"; "max_trials"]) as Hin
    by apply list_elem_of_further, list_elem_of_here.
  split; [exact Hin |]. split; [apply lookup_delete_eq |].
  exact (greedy_requires_arguments DemoNew.GreedyOracle DemoNew.engine_init
           DemoNew.INITIAL_HPS Greedy Demo.store0 ∅
           (delete "objective" DemoNew.kw0) "objective"
           DemoNew.new_without_objective.1 DemoNew.new_without_objective.2
           (or_introl eq_refl) Hin (lookup_delete_eq _ _)
           (surjective_pairing DemoNew.new_without_objective)).
Defined.
